(** * FarmTech Solutions: the crop record store and its CSV codec

    A shallow embedding of [farm_management.py]: the global list
    [crop_data], the interactive operations that mutate it
    ([input_crop_data], [update_crop_data], [delete_crop_data]) and the CSV
    export and import ([export_to_csv], [import_from_csv]).

    Modelling choices.
    - Python [float] and the conversions [float(s)], [int(s)], [str(x)] are
      builtins of the language, not code of the script: they are the
      interface [PyNum] below, with the laws the script relies on.
    - A Python [dict] is insertion ordered: it is an association list,
      written to with [dict_set] (an existing key keeps its place).
    - The console is a list of pending input lines and a list of printed
      messages; the prompt text given to [input] is not recorded.
    - A CSV file is the table of cells that [csv.writer] writes and
      [csv.reader] yields: a list of rows, each a list of strings.  The
      quoting and line-ending layer of the [csv] module is below the model;
      so is the translation of line ends when the file is read, which turns
      a carriage return inside a cell into a line feed.
    - An exception that no [except] clause of the script catches ends the
      run: [Uncaught], with the state at that point. *)

From Stdlib Require Import ZArith String Ascii List.
From Stdlib Require Import DecimalString DecimalPos DecimalZ.
From stdpp Require Import base decidable option list strings gmap.

Local Open Scope string_scope.
Local Open Scope Z_scope.
Local Open Scope list_scope.

(** ** Python numbers *)

(** The builtins the script uses on numbers.  [py_float s] is [float(s)] and
    [py_int s] is [int(s)], with [None] for [ValueError]; [str_float] and
    [str_int] are the text [csv.writer] produces for a float and an int.
    Equality on [float] is identity of the value: a nan reads back as the
    nan it was. *)
Class PyNum := {
  float : Type;
  float_mul : float -> float -> float;
  float_div : float -> float -> float;
  float_of_int : Z -> float;
  float_le : float -> float -> bool;
  float_lt : float -> float -> bool;
  py_float : string -> option float;
  str_float : float -> string;
  py_int : string -> option Z;
  str_int : Z -> string;
  (** [repr] of a float reads back as the same float. *)
  py_float_str : forall x, py_float (str_float x) = Some x;
  (** [float('')] raises [ValueError]. *)
  py_float_empty : py_float "" = None;
  py_int_str : forall n, py_int (str_int n) = Some n;
}.

(** ** Exceptions and results *)

Inductive exn :=
| FileNotFoundError (filename : string)
| KeyError (key : option string)      (* the missing key; [None] is Python's None *)
| ValueError (text : string)          (* the text that did not convert *)
| TypeError                           (* float(None), int(None) *)
| IndexError
| EOFError.

Inductive result (A : Type) :=
| Ok (a : A)
| Raise (e : exn).
Arguments Ok {A} a.
Arguments Raise {A} e.

Definition rbind {A B} (r : result A) (k : A -> result B) : result B :=
  match r with
  | Ok a => k a
  | Raise e => Raise e
  end.

Notation "x <- r ;; k" := (rbind r (fun x => k))
  (at level 100, r at next level, right associativity).

(** ** Dictionaries *)

Section Dict.
Context {V : Type}.

Definition dict := list (string * V).

(** [d.get(k)] *)
Fixpoint dict_get (k : string) (d : dict) : option V :=
  match d with
  | [] => None
  | (k', v) :: d' => if decide (k = k') then Some v else dict_get k d'
  end.

(** [d[k] = v] *)
Fixpoint dict_set (k : string) (v : V) (d : dict) : dict :=
  match d with
  | [] => [(k, v)]
  | (k', v') :: d' =>
      if decide (k = k') then (k, v) :: d' else (k', v') :: dict_set k v d'
  end.

(** [k in d] *)
Definition dict_has (k : string) (d : dict) : bool :=
  match dict_get k d with Some _ => true | None => false end.

(** [d.keys()] *)
Definition dict_keys (d : dict) : list string := map fst d.

(** [d[k]], raising [KeyError] *)
Definition dict_item (k : string) (d : dict) : result V :=
  match dict_get k d with
  | Some v => Ok v
  | None => Raise (KeyError (Some k))
  end.
End Dict.
Arguments dict V : clear implicits.

(** ** Lists as Python lists *)

Section PyList.
Context {A : Type}.

(** The position a Python index denotes: negative indices count from the
    end; out of range is [None] ([IndexError]). *)
Definition py_index (l : list A) (i : Z) : option nat :=
  let n := Z.of_nat (length l) in
  if (0 <=? i) && (i <? n) then Some (Z.to_nat i)
  else if (- n <=? i) && (i <? 0) then Some (Z.to_nat (i + n))
  else None.

(** [l.pop()] *)
Fixpoint list_pop (l : list A) : option (A * list A) :=
  match l with
  | [] => None
  | [x] => Some (x, [])
  | x :: l' =>
      match list_pop l' with
      | Some (y, l'') => Some (y, x :: l'')
      | None => None
      end
  end.

(** [l[i] = x] *)
Definition list_setitem (l : list A) (i : Z) (x : A) : result (list A) :=
  match py_index l i with
  | Some n => Ok (<[n := x]> l)
  | None => Raise IndexError
  end.

(** [del l[i]] *)
Definition list_delitem (l : list A) (i : Z) : result (list A) :=
  match py_index l i with
  | Some n => Ok (delete n l)
  | None => Raise IndexError
  end.
End PyList.

(** ** The data model *)

(** One entry of [crop_inputs.json] under a crop type. *)
Record input_info := InputInfo {
  info_name : string;
  info_unit : string;
}.

Section Farm.
Context {num : PyNum}.

(** [INPUTS]: the catalog loaded from [crop_inputs.json] at start-up, crop
    type to input kind to name and unit. *)
Variable INPUTS : dict (dict input_info).

(** [CROP_TYPES = list(INPUTS.keys())] *)
Definition CROP_TYPES : list string := dict_keys INPUTS.

(** The value of [crop['inputs'][input_type]].  The name and the unit are
    strings when entered at the console and whatever the row held when
    imported, which for a short row is [None]. *)
Record measurement := Measurement {
  m_name : option string;
  m_amount_per_ha : float;
  m_total_amount : float;
  m_unit : option string;
}.

(** An element of [crop_data]; the fields are the keys of the dict. *)
Record crop := Crop {
  c_type : string;
  c_length : float;
  c_width : float;
  c_area : float;
  c_num_rows : Z;
  c_inputs : dict measurement;
}.

(** What [print] was called with; the formatted lines keep their
    arguments, and a heading is kept without its leading blank line. *)
Inductive message :=
| Text (s : string)
| CropOption (i : nat) (crop_type : string)        (* "{i}. {crop}" *)
| Imported (n : nat) (filename : string)
    (* "Successfully imported {n} crops from {filename}." *)
| FileNotFound (filename : string)
    (* "File '{filename}' not found. Please make sure ..." *)
| MissingColumn (key : option string)
    (* "Error: Missing column in CSV file. {e}" *)
| InvalidData (literal : string).
    (* "Error: Invalid data in CSV file. {e}" *)

Definition table := list (list string).

(** The state of a run: the global [crop_data], the console and the files
    by name. *)
Record world := World {
  crop_data : list crop;
  stdin : list string;
  stdout : list message;
  files : gmap string table;
}.

Inductive outcome :=
| Normal (w : world)
| Uncaught (e : exn) (w : world).

Definition final (o : outcome) : world :=
  match o with Normal w | Uncaught _ w => w end.

Definition print (m : message) (w : world) : world :=
  World (crop_data w) (stdin w) (stdout w ++ [m]) (files w).

Definition set_crop_data (cs : list crop) (w : world) : world :=
  World cs (stdin w) (stdout w) (files w).

Definition set_console (lines : list string) (out : list message)
    (w : world) : world :=
  World (crop_data w) lines out (files w).

(** ** The calculator *)

Definition calculate_area (length width : float) : float :=
  float_div (float_mul length width) (float_of_int 10000).

Definition calculate_total_input (area amount_per_ha : float) : float :=
  float_mul area amount_per_ha.

(** ** Entering a record *)

(** A step at the console: the value or exception, the lines left and the
    messages printed so far. *)
Definition console (A : Type) : Type :=
  (result A * list string * list message)%type.

(** [x = float(input(...))] and [x = int(input(...))] outside any [try]. *)
Definition input_float (lines : list string) (out : list message)
    : console float :=
  match lines with
  | [] => (Raise EOFError, [], out)
  | l :: lines' =>
      match py_float l with
      | Some x => (Ok x, lines', out)
      | None => (Raise (ValueError l), lines', out)
      end
  end.

Definition input_int (lines : list string) (out : list message)
    : console Z :=
  match lines with
  | [] => (Raise EOFError, [], out)
  | l :: lines' =>
      match py_int l with
      | Some x => (Ok x, lines', out)
      | None => (Raise (ValueError l), lines', out)
      end
  end.

(** The first [while True] of [input_crop_data]: ask until the line is a
    number between 1 and [len(CROP_TYPES)]. *)
Fixpoint choose_crop_type (lines : list string) (out : list message)
    : console string :=
  match lines with
  | [] => (Raise EOFError, [], out)
  | l :: lines' =>
      match py_int l with
      | Some choice =>
          if (1 <=? choice) && (choice <=? Z.of_nat (length CROP_TYPES)) then
            match CROP_TYPES !! Z.to_nat (choice - 1) with
            | Some crop_type => (Ok crop_type, lines', out)
            | None => (Raise IndexError, lines', out)
            end
          else
            choose_crop_type lines'
              (out ++ [Text "Invalid choice. Please try again."])
      | None =>
          choose_crop_type lines' (out ++ [Text "Please enter a valid number."])
      end
  end.

(** The inner [while True]: ask until the line is a float [>= 0]. *)
Fixpoint ask_amount (lines : list string) (out : list message)
    : console float :=
  match lines with
  | [] => (Raise EOFError, [], out)
  | l :: lines' =>
      match py_float l with
      | Some amount_per_ha =>
          if float_le (float_of_int 0) amount_per_ha then
            (Ok amount_per_ha, lines', out)
          else
            ask_amount lines' (out ++ [Text "Please enter a non-negative number."])
      | None =>
          ask_amount lines' (out ++ [Text "Please enter a valid number."])
      end
  end.

(** [for input_type, input_info in available_inputs.items()]: a kind is
    recorded when its amount is [> 0]. *)
Fixpoint ask_inputs (area : float) (available_inputs : dict input_info)
    (inputs_data : dict measurement)
    (lines : list string) (out : list message)
    : console (dict measurement) :=
  match available_inputs with
  | [] => (Ok inputs_data, lines, out)
  | (input_type, info) :: rest =>
      match ask_amount lines out with
      | (Ok amount_per_ha, lines', out') =>
          let inputs_data' :=
            if float_lt (float_of_int 0) amount_per_ha then
              dict_set input_type
                (Measurement (Some (info_name info)) amount_per_ha
                   (calculate_total_input area amount_per_ha)
                   (Some (info_unit info)))
                inputs_data
            else inputs_data in
          ask_inputs area rest inputs_data' lines' out'
      | (Raise e, lines', out') => (Raise e, lines', out')
      end
  end.

Fixpoint crop_menu (i : nat) (crops : list string) : list message :=
  match crops with
  | [] => []
  | c :: crops' => CropOption i c :: crop_menu (S i) crops'
  end.

(** The record [input_crop_data] builds, up to the [append]. *)
Definition read_crop (lines : list string) (out : list message)
    : console crop :=
  let out := out ++ [Text "Select crop type:"] ++ crop_menu 1 CROP_TYPES in
  match choose_crop_type lines out with
  | (Raise e, lines, out) => (Raise e, lines, out)
  | (Ok crop_type, lines, out) =>
  match input_float lines out with
  | (Raise e, lines, out) => (Raise e, lines, out)
  | (Ok length, lines, out) =>
  match input_float lines out with
  | (Raise e, lines, out) => (Raise e, lines, out)
  | (Ok width, lines, out) =>
  match input_int lines out with
  | (Raise e, lines, out) => (Raise e, lines, out)
  | (Ok num_rows, lines, out) =>
  let area := calculate_area length width in
  match dict_item crop_type INPUTS with
  | Raise e => (Raise e, lines, out)
  | Ok available_inputs =>
  let out := out ++ [Text "Enter the quantity for each input (or 0 to skip):"] in
  match ask_inputs area available_inputs [] lines out with
  | (Raise e, lines, out) => (Raise e, lines, out)
  | (Ok inputs_data, lines, out) =>
      (Ok (Crop crop_type length width area num_rows inputs_data), lines, out)
  end end end end end end.

Definition input_crop_data (w : world) : outcome :=
  match read_crop (stdin w) (stdout w) with
  | (Raise e, lines, out) => Uncaught e (set_console lines out w)
  | (Ok c, lines, out) =>
      Normal (print (Text "Data added successfully.")
                (World (crop_data w ++ [c]) lines out (files w)))
  end.

(** ** Updating and deleting *)

Definition update_crop_data (w : world) : outcome :=
  match crop_data w with
  | [] => Normal (print (Text "No data available to update.") w)
  | _ :: _ =>
      match input_int (stdin w) (stdout w) with
      | (Raise e, lines, out) => Uncaught e (set_console lines out w)
      | (Ok n, lines, out) =>
          let idx := n - 1 in
          let w := set_console lines out w in
          if (0 <=? idx) && (idx <? Z.of_nat (length (crop_data w))) then
            match input_crop_data w with
            | Uncaught e w => Uncaught e w
            | Normal w =>
                (* crop_data[idx] = crop_data.pop(): the right-hand side
                   runs first *)
                match list_pop (crop_data w) with
                | None => Uncaught IndexError w
                | Some (last, remaining) =>
                    match list_setitem remaining idx last with
                    | Raise e => Uncaught e (set_crop_data remaining w)
                    | Ok updated =>
                        Normal (print (Text "Data updated successfully.")
                                  (set_crop_data updated w))
                    end
                end
            end
          else Normal (print (Text "Invalid index.") w)
      end
  end.

Definition delete_crop_data (w : world) : outcome :=
  match crop_data w with
  | [] => Normal (print (Text "No data available to delete.") w)
  | _ :: _ =>
      match input_int (stdin w) (stdout w) with
      | (Raise e, lines, out) => Uncaught e (set_console lines out w)
      | (Ok n, lines, out) =>
          let idx := n - 1 in
          let w := set_console lines out w in
          if (0 <=? idx) && (idx <? Z.of_nat (length (crop_data w))) then
            match list_delitem (crop_data w) idx with
            | Raise e => Uncaught e w
            | Ok remaining =>
                Normal (print (Text "Data deleted successfully.")
                          (set_crop_data remaining w))
            end
          else Normal (print (Text "Invalid index.") w)
      end
  end.

(** ** Export *)

(** A value stored in the row dict handed to [DictWriter.writerow]. *)
Inductive value :=
| VNone
| VStr (s : string)
| VFloat (x : float)
| VInt (n : Z).

(** The cell [csv.writer] writes for a value: [None] is the empty cell, a
    string is itself, a number is its [str]. *)
Definition cell_of_value (v : value) : string :=
  match v with
  | VNone => ""
  | VStr s => s
  | VFloat x => str_float x
  | VInt n => str_int n
  end.

Definition value_of_text (t : option string) : value :=
  match t with
  | Some s => VStr s
  | None => VNone
  end.

(** [f"{input_type}_{key}"] *)
Definition column (input_type key : string) : string :=
  input_type +:+ "_" +:+ key.

Definition fixed_columns : list string :=
  ["type"; "length"; "width"; "area"; "num_rows"].

Definition input_keys : list string :=
  ["name"; "amount_per_ha"; "total_amount"; "unit"].

(** The body of [for crop in crop_data] that grows [fieldnames]: one
    [append] per input kind of the crop and per key. *)
Definition add_fieldnames (fieldnames : list string) (c : crop)
    : list string :=
  fold_left
    (fun fieldnames input_type =>
       fold_left (fun fieldnames key => fieldnames ++ [column input_type key])
         input_keys fieldnames)
    (dict_keys (c_inputs c)) fieldnames.

Definition export_fieldnames (cs : list crop) : list string :=
  fold_left add_fieldnames cs fixed_columns.

(** The dict [row] built for one crop. *)
Definition export_row (c : crop) : dict value :=
  fold_left
    (fun row '(input_type, input_data) =>
       let row := dict_set (column input_type "name")
                    (value_of_text (m_name input_data)) row in
       let row := dict_set (column input_type "amount_per_ha")
                    (VFloat (m_amount_per_ha input_data)) row in
       let row := dict_set (column input_type "total_amount")
                    (VFloat (m_total_amount input_data)) row in
       dict_set (column input_type "unit")
         (value_of_text (m_unit input_data)) row)
    (c_inputs c)
    [("type", VStr (c_type c)); ("length", VFloat (c_length c));
     ("width", VFloat (c_width c)); ("area", VFloat (c_area c));
     ("num_rows", VInt (c_num_rows c))].

(** [DictWriter.writerow]: [ValueError] for a key outside [fieldnames],
    else one cell per field name, empty where the dict has no such key. *)
Definition writerow (fieldnames : list string) (rowdict : dict value)
    : result (list string) :=
  if forallb (fun k => bool_decide (k ∈ fieldnames)) (dict_keys rowdict) then
    Ok (map (fun key =>
               match dict_get key rowdict with
               | Some v => cell_of_value v
               | None => ""
               end) fieldnames)
  else Raise (ValueError "dict contains fields not in fieldnames").

(** The second [for crop in crop_data]: the rows written so far and the
    exception that stopped the loop, if any. *)
Fixpoint write_rows (fieldnames : list string) (cs : list crop)
    (written : table) : option exn * table :=
  match cs with
  | [] => (None, written)
  | c :: cs' =>
      match writerow fieldnames (export_row c) with
      | Ok cells => write_rows fieldnames cs' (written ++ [cells])
      | Raise e => (Some e, written)
      end
  end.

Definition export_to_csv (w : world) : outcome :=
  match crop_data w with
  | [] => Normal (print (Text "No data available to export.") w)
  | _ :: _ =>
      let fieldnames := export_fieldnames (crop_data w) in
      (* writeheader writes the field names *)
      let '(raised, written) :=
        write_rows fieldnames (crop_data w) [fieldnames] in
      let w := World (crop_data w) (stdin w) (stdout w)
                 (<["crop_data.csv" := written]> (files w)) in
      match raised with
      | Some e => Uncaught e w
      | None => Normal (print (Text "Data exported to crop_data.csv successfully.") w)
      end
  end.

(** ** Import *)

(** A row as [csv.DictReader] yields it: field name to cell, [None] for
    the fields a short row does not reach.  The entry under the key
    [None] that holds the surplus cells of a long row is left out: the
    script only looks up strings. *)
Definition reader_row (fieldnames cells : list string)
    : dict (option string) :=
  let d := fold_left (fun d '(k, cell) => dict_set k (Some cell) d)
             (zip fieldnames cells) [] in
  fold_left (fun d k => dict_set k None d)
    (drop (length cells) fieldnames) d.

(** The rows of a file: the first row names the fields, blank rows are
    skipped. *)
Definition DictReader (file : table) : list (dict (option string)) :=
  match file with
  | [] => []
  | fieldnames :: rows =>
      map (reader_row fieldnames) (filter (fun cells => cells <> []) rows)
  end.

(** [float(cell)] and [int(cell)] on a cell of a row. *)
Definition to_float (cell : option string) : result float :=
  match cell with
  | None => Raise TypeError
  | Some s =>
      match py_float s with
      | Some x => Ok x
      | None => Raise (ValueError s)
      end
  end.

Definition to_int (cell : option string) : result Z :=
  match cell with
  | None => Raise TypeError
  | Some s =>
      match py_int s with
      | Some x => Ok x
      | None => Raise (ValueError s)
      end
  end.

(** The dict assigned to [crop['inputs'][input_type]], entry by entry. *)
Definition import_measurement (row : dict (option string))
    (input_type : string) : result measurement :=
  name <- dict_item (column input_type "name") row ;;
  a <- dict_item (column input_type "amount_per_ha") row ;;
  amount_per_ha <- to_float a ;;
  t <- dict_item (column input_type "total_amount") row ;;
  total_amount <- to_float t ;;
  unit <- dict_item (column input_type "unit") row ;;
  Ok (Measurement name amount_per_ha total_amount unit).

(** [for input_type in INPUTS[row['type']].keys()] *)
Fixpoint import_inputs (row : dict (option string)) (kinds : list string)
    (inputs : dict measurement) : result (dict measurement) :=
  match kinds with
  | [] => Ok inputs
  | input_type :: kinds' =>
      if dict_has (column input_type "name") row then
        m <- import_measurement row input_type ;;
        import_inputs row kinds' (dict_set input_type m inputs)
      else import_inputs row kinds' inputs
  end.

(** [INPUTS[row['type']]] *)
Definition catalog_item (type : option string)
    : result (string * dict input_info) :=
  match type with
  | None => Raise (KeyError None)
  | Some t => available <- dict_item t INPUTS ;; Ok (t, available)
  end.

(** The dict literal first assigned to [crop]: the fixed columns of the row,
    read and converted in the order written. *)
Definition import_fixed (row : dict (option string))
    : result (option string * float * float * float * Z) :=
  type <- dict_item "type" row ;;
  l <- dict_item "length" row ;;
  length <- to_float l ;;
  wd <- dict_item "width" row ;;
  width <- to_float wd ;;
  a <- dict_item "area" row ;;
  area <- to_float a ;;
  n <- dict_item "num_rows" row ;;
  num_rows <- to_int n ;;
  Ok (type, length, width, area, num_rows).

(** The body of [for row in reader], up to the [append]. *)
Definition import_row (row : dict (option string)) : result crop :=
  fixed <- import_fixed row ;;
  let '(type, length, width, area, num_rows) := fixed in
  ta <- catalog_item type ;;
  inputs <- import_inputs row (dict_keys ta.2) [] ;;
  Ok (Crop ta.1 length width area num_rows inputs).

Fixpoint import_rows (rows : list (dict (option string)))
    (imported_data : list crop) : result (list crop) :=
  match rows with
  | [] => Ok imported_data
  | row :: rows' =>
      c <- import_row row ;;
      import_rows rows' (imported_data ++ [c])
  end.

(** [open(filename, 'r')] on the files of the model: a name is a file that
    can be read or it is missing.  A name that exists and cannot be opened
    (a directory, a file without permission) is not a state of this
    model. *)
Definition open_read (filename : string) (w : world) : result table :=
  match files w !! filename with
  | Some file => Ok file
  | None => Raise (FileNotFoundError filename)
  end.

Definition import_from_csv (w : world) : outcome :=
  match stdin w with
  | [] => Uncaught EOFError w
  | filename :: lines =>
      let w := set_console lines (stdout w) w in
      match
        file <- open_read filename w ;;
        import_rows (DictReader file) []
      with
      | Ok imported_data =>
          Normal (print (Imported (length imported_data) filename)
                    (set_crop_data imported_data w))
      | Raise (FileNotFoundError _) => Normal (print (FileNotFound filename) w)
      | Raise (KeyError k) => Normal (print (MissingColumn k) w)
      | Raise (ValueError s) => Normal (print (InvalidData s) w)
      | Raise e => Uncaught e w
      end
  end.

(** ** The operations of the menu that touch the store *)

Inductive operation := Enter | Update | Delete | ExportCsv | ImportCsv.

Definition run (op : operation) (w : world) : outcome :=
  match op with
  | Enter => input_crop_data w
  | Update => update_crop_data w
  | Delete => delete_crop_data w
  | ExportCsv => export_to_csv w
  | ImportCsv => import_from_csv w
  end.
End Farm.

(** ** An instance for the examples *)

(** Floats with a whole value, printed the way Python prints them
    ([200.0]); the examples only divide where the quotient is whole. *)

Definition whole_str_int (n : Z) : string :=
  NilZero.string_of_int (Z.to_int n).

Definition whole_py_int (s : string) : option Z :=
  option_map Z.of_int (NilZero.int_of_string s).

(** [s] without a final [.0], if it has one. *)
Fixpoint strip_point_zero (s : string) : option string :=
  match s with
  | EmptyString => None
  | String c s' =>
      if String.eqb s ".0" then Some EmptyString
      else option_map (String c) (strip_point_zero s')
  end.

Definition whole_str_float (x : Z) : string := whole_str_int x +:+ ".0".

Definition whole_py_float (s : string) : option Z :=
  match strip_point_zero s with
  | Some s' => whole_py_int s'
  | None => whole_py_int s
  end.

#[global] Instance whole : PyNum.
Proof.
  assert (Hint : forall n, whole_py_int (whole_str_int n) = Some n).
  { intros n. unfold whole_py_int, whole_str_int. rewrite NilZero.isi.
    - simpl. f_equal. apply DecimalZ.of_to.
    - destruct n; simpl; try discriminate.
      intros [= H]. by apply DecimalPos.Unsigned.to_uint_nonnil in H.
    - destruct n; simpl; try discriminate.
      intros [= H]. by apply DecimalPos.Unsigned.to_uint_nonnil in H. }
  assert (Hstrip : forall s, strip_point_zero (s +:+ ".0") = Some s).
  { intros s. induction s as [|c s IH]; [done|].
    change (String c s +:+ ".0") with (String c (s +:+ ".0")).
    cbn [strip_point_zero]. rewrite IH.
    destruct (String.eqb_spec (String c (s +:+ ".0")) ".0") as [E|_]; [|done].
    injection E as _ E. destruct s as [|? [|? ?]]; discriminate. }
  refine (Build_PyNum Z Z.mul Z.div (fun n => n) Z.leb Z.ltb
            whole_py_float whole_str_float whole_py_int whole_str_int
            _ eq_refl Hint).
  intros x. unfold whole_py_float, whole_str_float. by rewrite Hstrip.
Defined.

(** ** Example data *)

Definition example_catalog : dict (dict input_info) :=
  [("Soybean", [("fertilizer", InputInfo "NPK" "kg");
                ("pesticide", InputInfo "Glyphosate" "L")]);
   ("Corn", [("fertilizer", InputInfo "Urea" "kg")])].

Definition soybean_fertilized : crop :=
  Crop "Soybean" 200 100 2 10
    [("fertilizer", Measurement (Some "NPK") 100 200 (Some "kg"))].

Definition soybean_plain : crop := Crop "Soybean" 300 100 3 12 [].

Definition corn_fertilized : crop :=
  Crop "Corn" 100 100 1 8
    [("fertilizer", Measurement (Some "Urea") 50 50 (Some "kg"))].

(** The file [export_to_csv] writes for the store
    [[soybean_fertilized; soybean_plain]]: the second record has no
    fertilizer, so its four fertilizer cells are empty. *)
Definition mixed_header : list string :=
  ["type"; "length"; "width"; "area"; "num_rows"; "fertilizer_name";
   "fertilizer_amount_per_ha"; "fertilizer_total_amount"; "fertilizer_unit"].

Definition mixed_file : table :=
  [mixed_header;
   ["Soybean"; "200.0"; "100.0"; "2.0"; "10"; "NPK"; "100.0"; "200.0"; "kg"];
   ["Soybean"; "300.0"; "100.0"; "3.0"; "12"; ""; ""; ""; ""]].

Definition fertilized_row : dict (option string) :=
  reader_row mixed_header
    ["Soybean"; "200.0"; "100.0"; "2.0"; "10"; "NPK"; "100.0"; "200.0"; "kg"].

Definition plain_row : dict (option string) :=
  reader_row mixed_header
    ["Soybean"; "300.0"; "100.0"; "3.0"; "12"; ""; ""; ""; ""].

(** A run about to import that file into a store holding one record. *)
Definition importing_mixed : world :=
  World [corn_fertilized] ["crop_data.csv"] []
    {[ "crop_data.csv" := mixed_file ]}.

(** ** The vocabulary of the statements *)

(** The four columns of a kind. *)
Definition kind_columns (k : string) : list string := map (column k) input_keys.

(** The elements of a list, each kept where it first occurs. *)
Fixpoint first_seen (l : list string) : list string :=
  match l with
  | [] => []
  | x :: l' => x :: filter (fun y => y <> x) (first_seen l')
  end.

Section Vocabulary.
Context {num : PyNum}.
Variable INPUTS : dict (dict input_info).
Implicit Types (w : world) (c : crop) (cs : list crop).
Implicit Types (row : dict (option string)) (k key : string).

(** Every row of the file parses, giving the records [cs] in order. *)
Definition rows_parse (file : table) (cs : list crop) : Prop :=
  Forall2 (fun row c => import_row INPUTS row = Ok c) (DictReader file) cs.

(** Some row of the file raises. *)
Definition row_fails (file : table) : Prop :=
  exists row e, row ∈ DictReader file /\ import_row INPUTS row = Raise e.

(** The measurement [m] is made of the four cells of kind [k] in [row]. *)
Definition built_from row (k : string) (m : measurement) : Prop :=
  dict_get (column k "name") row = Some (m_name m) /\
  (exists a, dict_get (column k "amount_per_ha") row = Some a /\
             to_float a = Ok (m_amount_per_ha m)) /\
  (exists t, dict_get (column k "total_amount") row = Some t /\
             to_float t = Ok (m_total_amount m)) /\
  dict_get (column k "unit") row = Some (m_unit m).

(** The amount cell of kind [k] is there and empty, or it converts and the
    total cell is there and empty. *)
Definition empty_amount_cell row (k : string) : Prop :=
  dict_get (column k "amount_per_ha") row = Some (Some "") \/
  (exists s x,
      dict_get (column k "amount_per_ha") row = Some (Some s) /\
      py_float s = Some x /\
      dict_get (column k "total_amount") row = Some (Some "")).

(** The crop type of the record is a key of the catalog and the kinds of
    its measurements are among the kinds the catalog lists for that type. *)
Definition crop_ok c : Prop :=
  c_type c ∈ CROP_TYPES INPUTS /\
  exists available,
    dict_get (c_type c) INPUTS = Some available /\
    dict_keys (c_inputs c) ⊆ dict_keys available.

Definition store_ok (cs : list crop) : Prop := Forall crop_ok cs.

(** The kinds of the records, record by record, with repetitions. *)
Definition store_kinds cs : list string :=
  flat_map (fun c => dict_keys (c_inputs c)) cs.

(** The schema as the specification words it: the fixed columns, then one
    group of four columns per kind of the union, in the order the kinds are
    first met. *)
Definition union_schema cs : list string :=
  fixed_columns ++ flat_map kind_columns (first_seen (store_kinds cs)).

(** The value export stores under the column of [key] for a measurement. *)
Definition field_value (key : string) (m : measurement) : value :=
  if decide (key = "name") then value_of_text (m_name m)
  else if decide (key = "amount_per_ha") then VFloat (m_amount_per_ha m)
  else if decide (key = "total_amount") then VFloat (m_total_amount m)
  else value_of_text (m_unit m).

(** One turn of the loop that fills the row dict. *)
Definition set_input_columns (row : dict value) (item : string * measurement)
    : dict value :=
  let '(input_type, input_data) := item in
  let row := dict_set (column input_type "name")
               (value_of_text (m_name input_data)) row in
  let row := dict_set (column input_type "amount_per_ha")
               (VFloat (m_amount_per_ha input_data)) row in
  let row := dict_set (column input_type "total_amount")
               (VFloat (m_total_amount input_data)) row in
  dict_set (column input_type "unit") (value_of_text (m_unit input_data)) row.

Definition fixed_row c : dict value :=
  [("type", VStr (c_type c)); ("length", VFloat (c_length c));
   ("width", VFloat (c_width c)); ("area", VFloat (c_area c));
   ("num_rows", VInt (c_num_rows c))].

(** The cell export writes for a record under a field name. *)
Definition export_cell c (key : string) : string :=
  match dict_get key (export_row c) with
  | Some v => cell_of_value v
  | None => ""
  end.

(** The row the reader yields for the line export wrote for [c]. *)
Definition exported_row cs c : dict (option string) :=
  reader_row (export_fieldnames cs)
    (map (export_cell c) (export_fieldnames cs)).

(** The measurements of the record form a dict (no key twice) and their
    names and units are strings. *)
Definition record_wf c : Prop :=
  NoDup (dict_keys (c_inputs c)) /\
  forall k m, dict_get k (c_inputs c) = Some m ->
              is_Some (m_name m) /\ is_Some (m_unit m).

(** Every record holds each kind of its crop type that some record of the
    store holds. *)
Definition uniform cs : Prop :=
  forall c available k,
    c ∈ cs -> dict_get (c_type c) INPUTS = Some available ->
    k ∈ dict_keys available -> k ∈ store_kinds cs ->
    k ∈ dict_keys (c_inputs c).

(** Equal records, the measurements compared as Python compares dicts: key
    by key. *)
Definition same_content c c' : Prop :=
  c_type c = c_type c' /\ c_length c = c_length c' /\
  c_width c = c_width c' /\ c_area c = c_area c' /\
  c_num_rows c = c_num_rows c' /\
  forall k, dict_get k (c_inputs c) = dict_get k (c_inputs c').

End Vocabulary.

(** ** Showing the store, and the menu *)

Section Session.
Context {num : PyNum}.
Variable INPUTS : dict (dict input_info).

(** [f"{x:.2f}"], a builtin like the conversions of [PyNum]. *)
Variable format_2f : float -> string.

(** [f"{t}"] for a value that is a string or [None]. *)
Definition str_text (t : option string) : string :=
  match t with
  | Some s => s
  | None => "None"
  end.

(** The three lines printed for one entry of [crop['inputs']]. *)
Definition display_input (item : string * measurement) : list message :=
  let '(input_type, input_data) := item in
  [Text ("  " +:+ input_type +:+ " (" +:+ str_text (m_name input_data) +:+ "):");
   Text ("    Amount per hectare: "
         +:+ format_2f (m_amount_per_ha input_data)
         +:+ " " +:+ str_text (m_unit input_data));
   Text ("    Total amount needed: "
         +:+ format_2f (m_total_amount input_data)
         +:+ " " +:+ str_text (m_unit input_data))].

(** The lines printed for the crop at position [idx] (counted from 0). *)
Definition display_crop (idx : nat) (c : crop) : list message :=
  [Text ("Crop " +:+ str_int (Z.of_nat idx + 1) +:+ ":");
   Text ("Type: " +:+ c_type c);
   Text ("Field dimensions: " +:+ str_float (c_length c) +:+ "m x "
         +:+ str_float (c_width c) +:+ "m");
   Text ("Area: " +:+ format_2f (c_area c) +:+ " ha");
   Text ("Number of rows: " +:+ str_int (c_num_rows c));
   Text "Input Management:"]
  ++ flat_map display_input (c_inputs c).

(** [for idx, crop in enumerate(crop_data)] *)
Fixpoint display_crops (idx : nat) (cs : list crop) : list message :=
  match cs with
  | [] => []
  | c :: cs' => display_crop idx c ++ display_crops (S idx) cs'
  end.

Definition display_crop_data (w : world) : outcome :=
  match crop_data w with
  | [] => Normal (print (Text "No data available.") w)
  | _ :: _ =>
      Normal (World (crop_data w) (stdin w)
                (stdout w ++ display_crops 0 (crop_data w)) (files w))
  end.

Definition menu_text : list message :=
  [Text "--- FarmTech Solutions Menu ---";
   Text "1. Enter crop data";
   Text "2. Display crop data";
   Text "3. Update crop data";
   Text "4. Delete crop data";
   Text "5. Export data to CSV";
   Text "6. Import data from CSV";
   Text "7. Exit"].

(** How one turn of the menu loop ends: the loop goes on in a new state, or
    the run is over. *)
Inductive turn :=
| Again (w : world)
| Over (o : outcome).

Definition after (o : outcome) : turn :=
  match o with
  | Normal w => Again w
  | Uncaught e w => Over (Uncaught e w)
  end.

(** The body of the [while True] of [main_menu]. *)
Definition menu_turn (w : world) : turn :=
  let w := World (crop_data w) (stdin w) (stdout w ++ menu_text) (files w) in
  match stdin w with
  | [] => Over (Uncaught EOFError w)
  | choice :: lines =>
      let w := set_console lines (stdout w) w in
      if decide (choice = "1") then after (input_crop_data INPUTS w)
      else if decide (choice = "2") then after (display_crop_data w)
      else if decide (choice = "3") then after (update_crop_data INPUTS w)
      else if decide (choice = "4") then after (delete_crop_data w)
      else if decide (choice = "5") then after (export_to_csv w)
      else if decide (choice = "6") then after (import_from_csv INPUTS w)
      else if decide (choice = "7") then
        Over (Normal (print (Text "Exiting the program. Goodbye!") w))
      else Again (print (Text "Invalid choice. Please try again.") w)
  end.

(** [main_menu], run for at most [turns] turns of its loop; [None] when the
    loop is still going after that many. *)
Fixpoint main_menu (turns : nat) (w : world) : option outcome :=
  match turns with
  | O => None
  | S turns' =>
      match menu_turn w with
      | Again w' => main_menu turns' w'
      | Over o => Some o
      end
  end.

(** The state the script starts in: no records, nothing printed. *)
Definition start (lines : list string) (fs : gmap string table) : world :=
  World [] lines [] fs.
End Session.

(** [f"{x:.2f}"] on the whole-valued floats of the examples. *)
Definition whole_format_2f : @float whole -> string :=
  fun x => whole_str_int x +:+ ".00".

(** ** More vocabulary *)

(** A string without a carriage return, and a table of such cells: the
    tables that are read back from a file as they were written. *)
Definition plain (s : string) : Prop :=
  "013"%char ∉ list_ascii_of_string s.

#[global] Instance plain_dec (s : string) : Decision (plain s).
Proof. unfold plain. apply _. Defined.

Definition plain_table (file : table) : Prop := Forall (Forall plain) file.

Section MoreVocabulary.
Context {num : PyNum}.
Variable INPUTS : dict (dict input_info).

(** A step at the console only takes lines off the front of the input and
    only adds messages at the end of the output. *)
Definition advances {A} (lines : list string) (out : list message)
    (r : console A) : Prop :=
  r.1.2 `suffix_of` lines /\ out `prefix_of` r.2.

(** The same for a whole operation, which also leaves the files alone. *)
Definition console_only (w : world) (o : outcome) : Prop :=
  stdin (final o) `suffix_of` stdin w /\
  stdout w `prefix_of` stdout (final o) /\
  files (final o) = files w.

(** The exceptions that the console lets through: the input ran out, or a
    line did not convert. *)
Definition console_error (e : exn) : Prop :=
  e = EOFError \/ exists l, e = ValueError l.

(** The measurement [m] of kind [k] is what [input_crop_data] records for a
    field of area [area] from the catalog entry [available]: a positive
    amount, the total computed from it, the name and unit of the kind. *)
Definition entered_measurement (area : float) (available : dict input_info)
    (k : string) (m : measurement) : Prop :=
  float_lt (float_of_int 0) (m_amount_per_ha m) = true /\
  float_le (float_of_int 0) (m_amount_per_ha m) = true /\
  m_total_amount m = calculate_total_input area (m_amount_per_ha m) /\
  exists info, (k, info) ∈ available /\
               m_name m = Some (info_name info) /\
               m_unit m = Some (info_unit info).
(** From [w] to [w']: input was only taken off the front, output only
    added, the catalog invariant of the store kept, and no file changed
    except [crop_data.csv]. *)
Definition keeps (w w' : world) : Prop :=
  stdin w' `suffix_of` stdin w /\
  stdout w `prefix_of` stdout w' /\
  (store_ok INPUTS (crop_data w) -> store_ok INPUTS (crop_data w')) /\
  forall name, name <> "crop_data.csv" -> files w' !! name = files w !! name.

(** The exceptions that end a run of the model: the input ran out, a
    console line or a cell did not convert, or a short row gave [None] to a
    conversion. *)
Definition escapes (e : exn) : Prop :=
  console_error e \/ e = TypeError.

(** What reading a row can raise: a missing key, a cell that does not
    convert, or a cell that is [None]. *)
Definition row_error (e : exn) : Prop :=
  (exists k, e = KeyError k) \/ (exists s, e = ValueError s) \/ e = TypeError.

(** The lines [display_crop_data] prints for one record: six, and three
    more per measurement. *)
Definition display_lines (c : crop) : nat :=
  (6 + 3 * length (c_inputs c))%nat.
End MoreVocabulary.

(** ** More example data *)

(** A file with a header and nothing else. *)
Definition header_only_file : table := [mixed_header].

(** A file whose only record names a crop type outside the catalog. *)
Definition wheat_file : table :=
  [mixed_header;
   ["Wheat"; "10.0"; "10.0"; "1.0"; "3"; ""; ""; ""; ""]].

(** A file whose only record stops after the crop type. *)
Definition short_file : table := [mixed_header; ["Soybean"]].

(** A run about to import the file [file] into a store of one record. *)
Definition importing (file : table) : world :=
  World [corn_fertilized] ["data.csv"] [] {[ "data.csv" := file ]}.

(** A run of the menu: enter a record, show the store, a wrong choice,
    export, delete the record, show the empty store, leave; one line is
    left unread. *)
Definition example_session : world :=
  start ["1"; "1"; "200"; "100"; "10"; "100"; "0"; "2"; "9"; "5"; "4"; "1";
         "2"; "7"; "left over"] ∅.

(** ** Facts about dictionaries and Python lists *)

(** Settle a decidable closed goal by running its decision procedure. *)
Ltac key_in := apply (bool_decide_unpack _); by vm_compute.

Section DictFacts.
Context {V : Type}.
Implicit Types (d : dict V) (k : string) (v : V).

Lemma dict_get_set k k' v d :
  dict_get k (dict_set k' v d) = if decide (k = k') then Some v else dict_get k d.
Proof.
  induction d as [|[k0 v0] d IH]; simpl.
  - by destruct (decide (k = k')).
  - destruct (decide (k' = k0)) as [->|Hne]; simpl.
    + destruct (decide (k = k0)); done.
    + rewrite IH. destruct (decide (k = k0)) as [->|]; [|done].
      by rewrite decide_False.
Qed.

Lemma dict_get_set_eq k v d : dict_get k (dict_set k v d) = Some v.
Proof. rewrite dict_get_set. by rewrite decide_True. Qed.

Lemma dict_get_set_ne k k' v d :
  k <> k' -> dict_get k (dict_set k' v d) = dict_get k d.
Proof. intros. rewrite dict_get_set. by rewrite decide_False. Qed.

Lemma dict_get_Some_keys k v d : dict_get k d = Some v -> k ∈ dict_keys d.
Proof.
  induction d as [|[k0 v0] d IH]; simpl; [done|].
  destruct (decide (k = k0)) as [->|]; intros; [left|right; auto].
Qed.

Lemma dict_get_None_keys k d : dict_get k d = None <-> k ∉ dict_keys d.
Proof.
  induction d as [|[k0 v0] d IH]; simpl.
  - split; [intros _; apply not_elem_of_nil|done].
  - rewrite not_elem_of_cons. destruct (decide (k = k0)); [|tauto].
    split; [done|tauto].
Qed.

Lemma dict_has_keys k d : dict_has k d = true <-> k ∈ dict_keys d.
Proof.
  unfold dict_has. destruct (dict_get k d) eqn:E.
  - split; [intros _; by eapply dict_get_Some_keys|done].
  - apply dict_get_None_keys in E. split; [done|tauto].
Qed.

Lemma dict_keys_set k k' v d :
  k ∈ dict_keys (dict_set k' v d) <-> k = k' \/ k ∈ dict_keys d.
Proof.
  rewrite <- !dict_has_keys. unfold dict_has. rewrite dict_get_set.
  destruct (decide (k = k')); [tauto|].
  destruct (dict_get k d); split; auto. intros [|]; done.
Qed.
End DictFacts.

Section ListFacts.
Context {A : Type}.
Implicit Types (l : list A) (x : A).

Lemma py_index_in_range l i :
  0 <= i < Z.of_nat (length l) -> py_index l i = Some (Z.to_nat i).
Proof.
  intros [H0 H1]. unfold py_index.
  by rewrite (proj2 (Z.leb_le _ _) H0), (proj2 (Z.ltb_lt _ _) H1).
Qed.

Lemma list_pop_app l x : list_pop (l ++ [x]) = Some (x, l).
Proof.
  induction l as [|y l IH]; [done|].
  change ((y :: l) ++ [x]) with (y :: (l ++ [x])).
  cbn [list_pop]. rewrite IH. by destruct l.
Qed.

Lemma elem_of_flat_map {B} (f : A -> list B) l (y : B) :
  y ∈ flat_map f l <-> exists x, x ∈ l /\ y ∈ f x.
Proof.
  rewrite list_elem_of_In, in_flat_map.
  split; intros (x & Hx & Hy); exists x; by rewrite !list_elem_of_In in *.
Qed.
End ListFacts.

(** ** The record store *)

Section Store.
Context {num : PyNum}.
Variable INPUTS : dict (dict input_info).
Implicit Types (w : world) (c : crop) (i : Z).

Lemma input_crop_data_appends w w' :
  input_crop_data INPUTS w = Normal w' ->
  exists c lines out,
    read_crop INPUTS (stdin w) (stdout w) = (Ok c, lines, out) /\
    crop_data w' = crop_data w ++ [c] /\ files w' = files w.
Proof.
  unfold input_crop_data.
  destruct (read_crop INPUTS (stdin w) (stdout w)) as [[[c|e] lines] out];
    [|done].
  intros [= <-]. by exists c, lines, out.
Qed.

(** C9: on an empty store export reports that there is no data and
    returns; no file is created or overwritten and the store stays empty. *)
Theorem export_empty_store_is_noop
    (lines : list string) (out : list message) (fs : gmap string table) :
  export_to_csv (World [] lines out fs)
  = Normal (World [] lines (out ++ [Text "No data available to export."]) fs).
Proof. reflexivity. Qed.

(** C7: delete at a valid 1-based index [i] removes the record at position
    [i] and nothing else: the size drops by one, the records before it keep
    their place and the records after it move up by one, in order. *)
Theorem delete_removes_exactly_one w line lines i :
  stdin w = line :: lines -> py_int line = Some i ->
  1 <= i <= Z.of_nat (length (crop_data w)) ->
  exists w',
    delete_crop_data w = Normal w' /\
    crop_data w' = take (Z.to_nat (i - 1)) (crop_data w)
                   ++ drop (Z.to_nat i) (crop_data w) /\
    length (crop_data w') = (length (crop_data w) - 1)%nat /\
    (forall j, (j < Z.to_nat (i - 1))%nat ->
               crop_data w' !! j = crop_data w !! j) /\
    (forall j, (Z.to_nat (i - 1) <= j)%nat ->
               crop_data w' !! j = crop_data w !! S j).
Proof.
  intros Hin Hint Hi. unfold delete_crop_data.
  destruct (crop_data w) as [|c0 cs] eqn:Hcs; [simpl in Hi; lia|].
  unfold input_int. rewrite Hin, Hint. cbn [crop_data set_console].
  rewrite Hcs.
  assert (Hr : 0 <= i - 1 < Z.of_nat (length (c0 :: cs))) by lia.
  rewrite (proj2 (Z.leb_le _ _) (proj1 Hr)), (proj2 (Z.ltb_lt _ _) (proj2 Hr)).
  unfold list_delitem. rewrite (py_index_in_range _ _ Hr). cbn [andb].
  eexists. split; [reflexivity|]. cbn [crop_data print set_crop_data].
  assert (Hlt : (Z.to_nat (i - 1) < length (c0 :: cs))%nat) by lia.
  repeat split.
  - rewrite delete_take_drop. do 2 f_equal. lia.
  - apply length_delete. by apply lookup_lt_is_Some.
  - intros j Hj. by apply list_lookup_delete_lt.
  - intros j Hj. by apply list_lookup_delete_ge.
Qed.

(** C5: update at a valid 1-based index [i] puts the newly entered record
    at position [i]: every other position keeps its record and the size is
    unchanged. *)
Theorem update_replaces_in_place w line lines i c lines' out' :
  stdin w = line :: lines -> py_int line = Some i ->
  1 <= i <= Z.of_nat (length (crop_data w)) ->
  read_crop INPUTS lines (stdout w) = (Ok c, lines', out') ->
  exists w',
    update_crop_data INPUTS w = Normal w' /\
    crop_data w' = <[Z.to_nat (i - 1) := c]> (crop_data w) /\
    crop_data w' !! Z.to_nat (i - 1) = Some c /\
    length (crop_data w') = length (crop_data w) /\
    (forall j, j <> Z.to_nat (i - 1) -> crop_data w' !! j = crop_data w !! j).
Proof.
  intros Hin Hint Hi Hread. unfold update_crop_data.
  destruct (crop_data w) as [|c0 cs] eqn:Hcs; [simpl in Hi; lia|].
  unfold input_int. rewrite Hin, Hint. cbn [crop_data set_console].
  rewrite Hcs.
  assert (Hr : 0 <= i - 1 < Z.of_nat (length (c0 :: cs))) by lia.
  rewrite (proj2 (Z.leb_le _ _) (proj1 Hr)), (proj2 (Z.ltb_lt _ _) (proj2 Hr)).
  cbn [andb]. unfold input_crop_data.
  cbn [set_console stdin stdout crop_data files].
  rewrite Hread. cbn [print crop_data]. rewrite Hcs, list_pop_app.
  unfold list_setitem. rewrite (py_index_in_range _ _ Hr).
  eexists. split; [reflexivity|]. cbn [crop_data set_crop_data].
  assert (Hlt : (Z.to_nat (i - 1) < length (c0 :: cs))%nat) by lia.
  repeat split.
  - by apply list_lookup_insert_eq.
  - apply length_insert.
  - intros j Hj. by apply list_lookup_insert_ne.
Qed.

(** C6: an out-of-range index supplied to update is answered with the
    index error, and the store is as it was.  The index supplied is the
    line update takes from the input.  Whatever the store, its content and
    order are unchanged; wherever update takes the line, which is on every
    store that holds a record, the answer is "Invalid index." and nothing
    changes but the console.  On the empty store update takes no line: it
    says that there is no data before it asks for an index. *)
Theorem update_out_of_range_reports w line lines i :
  stdin w = line :: lines -> py_int line = Some i ->
  i < 1 \/ Z.of_nat (length (crop_data w)) < i ->
  let o := update_crop_data INPUTS w in
  crop_data (final o) = crop_data w /\
  (stdin (final o) = lines <-> crop_data w <> []) /\
  (stdin (final o) = lines ->
   o = Normal (World (crop_data w) lines
                 (stdout w ++ [Text "Invalid index."]) (files w))) /\
  (stdin (final o) <> lines ->
   o = Normal (World (crop_data w) (line :: lines)
                 (stdout w ++ [Text "No data available to update."])
                 (files w))).
Proof.
  intros Hin Hint Hi. cbn zeta.
  assert (Hself : line :: lines <> lines).
  { intros Heq. apply (f_equal length) in Heq. simpl in Heq. lia. }
  destruct (crop_data w) as [|c0 cs] eqn:Hcs.
  - assert (Hrun : update_crop_data INPUTS w
                   = Normal (World [] (line :: lines)
                               (stdout w ++ [Text "No data available to update."])
                               (files w))).
    { unfold update_crop_data. rewrite Hcs. unfold print.
      by rewrite Hcs, Hin. }
    rewrite Hrun. cbn [final crop_data stdin].
    split; [done|]. split; [split; [by intros ?|done]|].
    split; [by intros ?|done].
  - assert (Hrun : update_crop_data INPUTS w
                   = Normal (World (c0 :: cs) lines
                               (stdout w ++ [Text "Invalid index."])
                               (files w))).
    { unfold update_crop_data. rewrite Hcs.
      unfold input_int. rewrite Hin, Hint. cbn [crop_data set_console].
      rewrite Hcs.
      destruct (Z.leb_spec 0 (i - 1)),
               (Z.ltb_spec (i - 1) (Z.of_nat (length (c0 :: cs))));
        try lia; cbn [andb]; unfold print, set_console; simpl;
        by rewrite Hcs. }
    rewrite Hrun. cbn [final crop_data stdin].
    split; [done|]. split; [by split|]. split; [done|by intros []].
Qed.
End Store.

Lemma delete_removes_exactly_one_witness :
  exists w',
    delete_crop_data (World [soybean_fertilized; soybean_plain; corn_fertilized]
                        ["2"] [] ∅) = Normal w' /\
    crop_data w' = [soybean_fertilized; corn_fertilized].
Proof.
  destruct (delete_removes_exactly_one
              (World [soybean_fertilized; soybean_plain; corn_fertilized]
                 ["2"] [] ∅) "2" [] 2) as (w' & Hrun & Hcs & _);
    [reflexivity | reflexivity | simpl; lia |].
  exists w'. split; [exact Hrun | exact Hcs].
Defined.

Lemma update_replaces_in_place_witness :
  exists w',
    update_crop_data example_catalog
      (World [soybean_fertilized; soybean_plain; corn_fertilized]
         ["1"; "2"; "100.0"; "100.0"; "8"; "50.0"] [] ∅) = Normal w' /\
    crop_data w' = [corn_fertilized; soybean_plain; corn_fertilized].
Proof.
  destruct (update_replaces_in_place example_catalog
              (World [soybean_fertilized; soybean_plain; corn_fertilized]
                 ["1"; "2"; "100.0"; "100.0"; "8"; "50.0"] [] ∅)
              "1" ["2"; "100.0"; "100.0"; "8"; "50.0"] 1 corn_fertilized []
              [Text "Select crop type:"; CropOption 1 "Soybean";
               CropOption 2 "Corn";
               Text "Enter the quantity for each input (or 0 to skip):"])
    as (w' & Hrun & Hcs & _);
    [reflexivity | reflexivity | simpl; lia | reflexivity |].
  exists w'. split; [exact Hrun | exact Hcs].
Defined.

Lemma update_out_of_range_reports_witness :
  update_crop_data example_catalog
    (World [soybean_fertilized; soybean_plain] ["3"] [] ∅)
  = Normal (World [soybean_fertilized; soybean_plain] []
              [Text "Invalid index."] ∅).
Proof.
  apply (proj1 (proj2 (proj2
           (update_out_of_range_reports example_catalog
              (World [soybean_fertilized; soybean_plain] ["3"] [] ∅)
              "3" [] 3 eq_refl eq_refl ltac:(right; simpl; lia))))).
  reflexivity.
Defined.

(** ** Import *)

Section Importing.
Context {num : PyNum}.
Variable INPUTS : dict (dict input_info).
Implicit Types (w : world) (c : crop) (row : dict (option string)).

Lemma rbind_Ok {A B} (r : result A) (k : A -> result B) b :
  rbind r k = Ok b <-> exists a, r = Ok a /\ k a = Ok b.
Proof.
  destruct r as [a|e]; simpl.
  - split; [by exists a | by intros (? & [= <-] & ?)].
  - split; [done | by intros (? & ? & ?)].
Qed.

Lemma dict_item_Ok {V} k (d : dict V) v :
  dict_item k d = Ok v <-> dict_get k d = Some v.
Proof.
  unfold dict_item. destruct (dict_get k d); split; congruence.
Qed.

Lemma import_rows_Ok rows acc cs :
  import_rows INPUTS rows acc = Ok cs <->
  exists cs', cs = acc ++ cs' /\
              Forall2 (fun row c => import_row INPUTS row = Ok c) rows cs'.
Proof.
  revert acc. induction rows as [|row rows IH]; intros acc; simpl.
  - split.
    + intros [= <-]. exists []. by rewrite app_nil_r.
    + intros (cs' & -> & H). apply Forall2_nil_inv_l in H as ->.
      by rewrite app_nil_r.
  - rewrite rbind_Ok. split.
    + intros (c & Hc & Hrest). apply IH in Hrest as (cs' & -> & H).
      exists (c :: cs'). split; [by rewrite <- app_assoc|by constructor].
    + intros (cs' & -> & H). apply Forall2_cons_inv_l in H
        as (c & cs'' & Hc & H & ->).
      exists c. split; [done|]. apply IH. exists cs''.
      split; [by rewrite <- app_assoc|done].
Qed.

Lemma import_rows_Raise rows acc row e :
  row ∈ rows -> import_row INPUTS row = Raise e ->
  exists e', import_rows INPUTS rows acc = Raise e'.
Proof.
  revert acc. induction rows as [|row0 rows IH]; intros acc Hin Hrow.
  - by apply elem_of_nil in Hin.
  - simpl. destruct (import_row INPUTS row0) as [c0|e0] eqn:E0; simpl.
    + apply elem_of_cons in Hin as [->|Hin]; [congruence|]. by apply IH.
    + by exists e0.
Qed.

(** The first row that raises decides the exception of the whole loop. *)
Lemma import_rows_first_Raise pre row post acc cs e :
  Forall2 (fun row c => import_row INPUTS row = Ok c) pre cs ->
  import_row INPUTS row = Raise e ->
  import_rows INPUTS (pre ++ row :: post) acc = Raise e.
Proof.
  intros Hpre Hrow. revert acc.
  induction Hpre as [|r c pre cs Hr _ IH]; intros acc; simpl.
  - by rewrite Hrow.
  - rewrite Hr. simpl. apply IH.
Qed.

(** Running the import on a file that is there. *)
Lemma import_from_csv_file w filename lines file :
  stdin w = filename :: lines -> files w !! filename = Some file ->
  import_from_csv INPUTS w =
  let w0 := set_console lines (stdout w) w in
  match import_rows INPUTS (DictReader file) [] with
  | Ok imported_data =>
      Normal (print (Imported (length imported_data) filename)
                (set_crop_data imported_data w0))
  | Raise (FileNotFoundError _) => Normal (print (FileNotFound filename) w0)
  | Raise (KeyError k) => Normal (print (MissingColumn k) w0)
  | Raise (ValueError s) => Normal (print (InvalidData s) w0)
  | Raise e => Uncaught e w0
  end.
Proof.
  intros Hin Hfile. unfold import_from_csv, open_read. rewrite Hin.
  cbn [files set_console]. rewrite Hfile. reflexivity.
Qed.

(** C3: import is all or nothing.  With no file name to read, a missing
    file, or a file in which some row raises (a missing column, a cell that
    does not convert, a crop type outside the catalog), the store after the
    import is the store before it; and when every row parses the store is
    exactly the parsed records. *)
Theorem import_all_or_nothing w :
  let w' := final (import_from_csv INPUTS w) in
  (stdin w = [] -> crop_data w' = crop_data w) /\
  (forall filename lines,
      stdin w = filename :: lines ->
      (files w !! filename = None -> crop_data w' = crop_data w) /\
      (forall file,
          files w !! filename = Some file ->
          (row_fails INPUTS file -> crop_data w' = crop_data w) /\
          (forall cs, rows_parse INPUTS file cs -> crop_data w' = cs))).
Proof.
  cbn zeta. split.
  - intros Hin. unfold import_from_csv. by rewrite Hin.
  - intros filename lines Hin. split.
    + intros Hnone. unfold import_from_csv, open_read. rewrite Hin.
      cbn [files set_console]. by rewrite Hnone.
    + intros file Hfile. rewrite (import_from_csv_file _ _ _ _ Hin Hfile).
      cbn zeta. split.
      * intros (row & e & Hrow & He).
        destruct (import_rows_Raise _ [] _ _ Hrow He) as [e' ->].
        by destruct e'.
      * intros cs Hcs.
        assert (import_rows INPUTS (DictReader file) [] = Ok cs) as ->; [|done].
        apply import_rows_Ok. by exists cs.
Qed.

Lemma import_measurement_built row k m :
  import_measurement row k = Ok m <-> built_from row k m.
Proof.
  unfold import_measurement, built_from.
  repeat setoid_rewrite rbind_Ok. repeat setoid_rewrite dict_item_Ok.
  split.
  - intros (name & Hn & a & Ha & x & Hx & t & Ht & y & Hy & u & Hu & [= <-]).
    simpl. eauto 10.
  - intros (Hn & (a & Ha & Hx) & (t & Ht & Hy) & Hu).
    exists (m_name m). split; [done|]. exists a. split; [done|].
    exists (m_amount_per_ha m). split; [done|]. exists t. split; [done|].
    exists (m_total_amount m). split; [done|]. exists (m_unit m).
    split; [done|]. by destruct m.
Qed.

(** The loop over the kinds of the catalog: a kind of the list whose name
    column is in the row gets the measurement of its four cells, every
    other key is as it was. *)
Lemma import_inputs_get row kinds acc d k :
  import_inputs row kinds acc = Ok d ->
  if decide (k ∈ kinds /\ column k "name" ∈ dict_keys row)
  then exists m, import_measurement row k = Ok m /\ dict_get k d = Some m
  else dict_get k d = dict_get k acc.
Proof.
  revert acc. induction kinds as [|k0 kinds IH]; intros acc;
    cbn [import_inputs].
  - intros [= <-]. rewrite decide_False; [done|].
    intros [H _]. by apply elem_of_nil in H.
  - destruct (dict_has (column k0 "name") row) eqn:Hhas.
    + rewrite rbind_Ok. intros (m0 & Hm0 & Hrest).
      specialize (IH _ Hrest). apply dict_has_keys in Hhas.
      destruct (decide (k ∈ kinds /\ column k "name" ∈ dict_keys row))
        as [[Hk Hc]|Hn].
      * rewrite decide_True; [done|]. split; [by right|done].
      * rewrite IH. destruct (decide (k = k0)) as [->|Hne].
        -- rewrite decide_True; [|split; [by left|done]].
           exists m0. by rewrite dict_get_set_eq.
        -- rewrite dict_get_set_ne by done. rewrite decide_False; [done|].
           intros [Hk Hc]. apply elem_of_cons in Hk as [?|?]; tauto.
    + intros Hrest. specialize (IH _ Hrest).
      assert (Hno : column k0 "name" ∉ dict_keys row).
      { intros Hc. apply dict_has_keys in Hc. congruence. }
      destruct (decide (k ∈ kinds /\ column k "name" ∈ dict_keys row))
        as [[Hk Hc]|Hn].
      * rewrite decide_True; [done|]. split; [by right|done].
      * rewrite decide_False; [done|].
        intros [Hk Hc]. apply elem_of_cons in Hk as [->|?]; tauto.
Qed.

Lemma import_row_Ok row c :
  import_row INPUTS row = Ok c <->
  exists type available,
    import_fixed row
    = Ok (type, c_length c, c_width c, c_area c, c_num_rows c) /\
    type = Some (c_type c) /\
    dict_get (c_type c) INPUTS = Some available /\
    import_inputs row (dict_keys available) [] = Ok (c_inputs c).
Proof.
  unfold import_row. rewrite rbind_Ok. split.
  - intros ([[[[type l] wd] a] n] & Hfix & Hrest).
    apply rbind_Ok in Hrest as ([t available] & Hcat & Hrest).
    apply rbind_Ok in Hrest as (inputs & Hin & [= <-]).
    unfold catalog_item in Hcat. destruct type as [t'|]; [|done].
    apply rbind_Ok in Hcat as (av & Hav & [= <- <-]).
    apply dict_item_Ok in Hav. by exists (Some t'), av.
  - intros (type & available & Hfix & -> & Hav & Hin).
    eexists. split; [exact Hfix|]. cbn beta iota.
    unfold catalog_item. apply dict_item_Ok in Hav. rewrite Hav. simpl.
    rewrite Hin. simpl. by destruct c.
Qed.

(** Only kinds of the catalog entry are filled in. *)
Lemma import_row_kinds_listed row c :
  import_row INPUTS row = Ok c ->
  exists available,
    dict_get (c_type c) INPUTS = Some available /\
    (forall k, k ∈ dict_keys (c_inputs c) -> k ∈ dict_keys available).
Proof.
  intros Hrow. apply import_row_Ok in Hrow
    as (type & available & _ & _ & Hav & Hin).
  exists available. split; [done|].
  intros k Hk. pose proof (import_inputs_get _ _ _ _ k Hin) as Hget.
  destruct (decide (k ∈ dict_keys available /\ _)) as [[? _]|Hn]; [done|].
  apply dict_has_keys in Hk. unfold dict_has in Hk. by rewrite Hget in Hk.
Qed.

(** C4: in a record read from a row, the crop type is in the catalog, and a
    kind the catalog lists for it is among the measurements exactly when
    the row has its name column, the measurement being made of the four
    cells of the kind; no other kind is among the measurements. *)
Theorem import_row_measurements row c :
  import_row INPUTS row = Ok c ->
  exists available,
    dict_get (c_type c) INPUTS = Some available /\
    (forall k, k ∈ dict_keys available ->
       (k ∈ dict_keys (c_inputs c) <-> column k "name" ∈ dict_keys row) /\
       (forall m, dict_get k (c_inputs c) = Some m -> built_from row k m)) /\
    (forall k, k ∈ dict_keys (c_inputs c) -> k ∈ dict_keys available).
Proof.
  intros Hrow. apply import_row_Ok in Hrow
    as (type & available & _ & _ & Hav & Hin).
  exists available. split; [done|]. split.
  - intros k Hk. pose proof (import_inputs_get _ _ _ _ k Hin) as Hget.
    destruct (decide (k ∈ dict_keys available /\ _)) as [[_ Hc]|Hn].
    + destruct Hget as (m & Hm & Hget). split.
      * split; [done|]. intros _. by eapply dict_get_Some_keys.
      * intros m' Hm'. rewrite Hget in Hm'. injection Hm' as <-.
        by apply import_measurement_built.
    + simpl in Hget. split.
      * split; [|tauto]. intros Hin'. apply dict_has_keys in Hin'.
        unfold dict_has in Hin'. by rewrite Hget in Hin'.
      * intros m'. by rewrite Hget.
  - intros k Hk. pose proof (import_inputs_get _ _ _ _ k Hin) as Hget.
    destruct (decide (k ∈ dict_keys available /\ _)) as [[? _]|Hn]; [done|].
    apply dict_has_keys in Hk. unfold dict_has in Hk. by rewrite Hget in Hk.
Qed.

Lemma import_measurement_empty row k :
  column k "name" ∈ dict_keys row -> empty_amount_cell row k ->
  import_measurement row k = Raise (ValueError "").
Proof.
  intros Hname Hempty. unfold import_measurement, dict_item.
  apply dict_has_keys in Hname. unfold dict_has in Hname.
  destruct (dict_get (column k "name") row) as [name|]; [|done].
  cbn [rbind].
  destruct Hempty as [Ha|(s & x & Ha & Hx & Ht)]; rewrite Ha; cbn [rbind to_float].
  - by rewrite py_float_empty.
  - rewrite Hx. cbn [rbind]. rewrite Ht. cbn [rbind to_float].
    by rewrite py_float_empty.
Qed.

Lemma import_inputs_app row kinds1 kinds2 acc :
  import_inputs row (kinds1 ++ kinds2) acc
  = (d <- import_inputs row kinds1 acc ;; import_inputs row kinds2 d).
Proof.
  revert acc. induction kinds1 as [|k kinds1 IH]; intros acc; [done|].
  cbn [app import_inputs]. destruct (dict_has (column k "name") row); [|done].
  destruct (import_measurement row k); [|done]. cbn [rbind]. apply IH.
Qed.



(** C10: take a row whose crop type lists the kind [k], with the name
    column of [k] in the header and an empty amount (or total) cell, the
    rows before it and the row up to [k] being fine.  The kind is not taken
    as absent: the empty cell goes to [float], which raises; the import
    stops with the invalid-data message and nothing but the console
    changes. *)
Theorem import_empty_amount_aborts w filename lines file pre row post cs
    t length width area num_rows available kinds_before k kinds_after d :
  stdin w = filename :: lines ->
  files w !! filename = Some file ->
  DictReader file = pre ++ row :: post ->
  Forall2 (fun r c => import_row INPUTS r = Ok c) pre cs ->
  import_fixed row = Ok (Some t, length, width, area, num_rows) ->
  dict_get t INPUTS = Some available ->
  dict_keys available = kinds_before ++ k :: kinds_after ->
  import_inputs row kinds_before [] = Ok d ->
  column k "name" ∈ dict_keys row ->
  empty_amount_cell row k ->
  import_measurement row k = Raise (ValueError "") /\
  import_row INPUTS row = Raise (ValueError "") /\
  import_from_csv INPUTS w
  = Normal (World (crop_data w) lines (stdout w ++ [InvalidData ""]) (files w)).
Proof.
  intros Hin Hfile Hrows Hpre Hfix Hav Hkinds Hbefore Hname Hempty.
  pose proof (import_measurement_empty _ _ Hname Hempty) as Hm.
  assert (Hrow : import_row INPUTS row = Raise (ValueError "")).
  { unfold import_row. rewrite Hfix. cbn [rbind catalog_item].
    unfold dict_item. rewrite Hav. cbn [rbind snd].
    rewrite Hkinds, import_inputs_app, Hbefore. cbn [rbind import_inputs].
    apply dict_has_keys in Hname. by rewrite Hname, Hm. }
  split; [done|]. split; [done|].
  rewrite (import_from_csv_file _ _ _ _ Hin Hfile), Hrows.
  by rewrite (import_rows_first_Raise _ _ _ _ _ _ Hpre Hrow).
Qed.
End Importing.

Example export_writes_mixed_file :
  files (final (export_to_csv
                  (World [soybean_fertilized; soybean_plain] [] [] ∅)))
  !! "crop_data.csv" = Some mixed_file.
Proof. by vm_compute. Qed.

Lemma import_all_or_nothing_witness :
  row_fails example_catalog mixed_file /\
  crop_data (final (import_from_csv example_catalog importing_mixed))
  = [corn_fertilized].
Proof.
  assert (Hfails : row_fails example_catalog mixed_file).
  { exists plain_row, (ValueError ""). split; [|reflexivity].
    apply list_elem_of_lookup. by exists 1%nat. }
  split; [exact Hfails|].
  exact (proj1 (proj2 (proj2 (import_all_or_nothing example_catalog
                                importing_mixed)
                         "crop_data.csv" [] eq_refl) mixed_file eq_refl)
           Hfails).
Defined.

Lemma import_row_measurements_witness :
  import_row example_catalog fertilized_row = Ok soybean_fertilized /\
  exists available,
    dict_get "Soybean" example_catalog = Some available /\
    (forall k, k ∈ dict_keys available ->
       (k ∈ dict_keys (c_inputs soybean_fertilized)
        <-> column k "name" ∈ dict_keys fertilized_row) /\
       (forall m, dict_get k (c_inputs soybean_fertilized) = Some m ->
                  built_from fertilized_row k m)) /\
    (forall k, k ∈ dict_keys (c_inputs soybean_fertilized) ->
               k ∈ dict_keys available).
Proof.
  split; [reflexivity|].
  exact (import_row_measurements example_catalog fertilized_row
           soybean_fertilized eq_refl).
Defined.

Lemma import_empty_amount_aborts_witness :
  import_row example_catalog plain_row = Raise (ValueError "") /\
  import_from_csv example_catalog importing_mixed
  = Normal (World [corn_fertilized] [] [InvalidData ""]
              {[ "crop_data.csv" := mixed_file ]}).
Proof.
  apply (import_empty_amount_aborts example_catalog importing_mixed
           "crop_data.csv" [] mixed_file [fertilized_row] plain_row []
           [soybean_fertilized] "Soybean" 300 100 3 12
           [("fertilizer", InputInfo "NPK" "kg");
            ("pesticide", InputInfo "Glyphosate" "L")]
           [] "fertilizer" ["pesticide"] []).
  - reflexivity.
  - reflexivity.
  - reflexivity.
  - repeat constructor.
  - reflexivity.
  - reflexivity.
  - reflexivity.
  - reflexivity.
  - apply dict_has_keys. reflexivity.
  - left. reflexivity.
Defined.

(** ** The catalog invariant of the store *)

Section Invariant.
Context {num : PyNum}.
Variable INPUTS : dict (dict input_info).
Implicit Types (w : world) (c : crop).

Lemma choose_crop_type_listed lines out t lines' out' :
  choose_crop_type INPUTS lines out = (Ok t, lines', out') ->
  t ∈ CROP_TYPES INPUTS.
Proof.
  revert out. induction lines as [|l lines IH]; intros out; simpl; [done|].
  destruct (py_int l) as [choice|]; [|apply IH].
  destruct (_ && _); [|apply IH].
  destruct (CROP_TYPES INPUTS !! Z.to_nat (choice - 1)) as [t'|] eqn:E; [|done].
  intros [= <- _ _]. by eapply list_elem_of_lookup_2.
Qed.

Lemma ask_inputs_keys area available acc lines out d lines' out' :
  ask_inputs area available acc lines out = (Ok d, lines', out') ->
  dict_keys d ⊆ dict_keys acc ++ dict_keys available.
Proof.
  revert acc lines out.
  induction available as [|[k info] available IH]; intros acc lines out; simpl.
  - intros [= <- _ _]. by rewrite app_nil_r.
  - destruct (ask_amount lines out) as [[[a|e] lines1] out1]; [|done].
    intros H. apply IH in H. intros k' Hk'. apply H in Hk'.
    rewrite elem_of_app in Hk'. rewrite elem_of_app, elem_of_cons.
    destruct Hk' as [Hk'|Hk']; [|tauto].
    destruct (float_lt _ a); [|tauto].
    apply dict_keys_set in Hk'. tauto.
Qed.

Lemma read_crop_ok lines out c lines' out' :
  read_crop INPUTS lines out = (Ok c, lines', out') -> crop_ok INPUTS c.
Proof.
  unfold read_crop.
  destruct (choose_crop_type _ _ _) as [[[t|e] l1] o1] eqn:Ht; [|done].
  destruct (input_float l1 o1) as [[[len|e] l2] o2]; [|done].
  destruct (input_float l2 o2) as [[[wd|e] l3] o3]; [|done].
  destruct (input_int l3 o3) as [[[n|e] l4] o4]; [|done].
  unfold dict_item.
  destruct (dict_get t INPUTS) as [available|] eqn:Hav; [|done].
  destruct (ask_inputs _ _ _ _ _) as [[[d|e] l5] o5] eqn:Hd; [|done].
  intros [= <- _ _]. split; simpl.
  - by eapply choose_crop_type_listed.
  - exists available. split; [done|]. by apply ask_inputs_keys in Hd.
Qed.

Lemma import_row_ok row c : import_row INPUTS row = Ok c -> crop_ok INPUTS c.
Proof.
  intros H. apply import_row_kinds_listed in H as (available & Hav & Hk).
  split.
  - by eapply dict_get_Some_keys.
  - by exists available.
Qed.

Lemma list_pop_Forall {A} (P : A -> Prop) (l l' : list A) x :
  Forall P l -> list_pop l = Some (x, l') -> P x /\ Forall P l'.
Proof.
  revert l' x. induction l as [|y l IH]; intros l' x Hl; [done|].
  apply Forall_cons in Hl as [Hy Hl]. cbn [list_pop].
  destruct l as [|z l].
  - intros [= <- <-]. by split.
  - destruct (list_pop (z :: l)) as [[x' l'']|]; [|done].
    intros [= <- <-]. destruct (IH _ _ Hl eq_refl). split; [done|].
    by constructor.
Qed.

Lemma input_crop_data_ok w :
  store_ok INPUTS (crop_data w) ->
  store_ok INPUTS (crop_data (final (input_crop_data INPUTS w))).
Proof.
  intros Hok. unfold input_crop_data.
  destruct (read_crop _ _ _) as [[[c|e] lines] out] eqn:Hc; simpl; [|done].
  apply Forall_app. split; [done|]. constructor; [|done].
  by eapply read_crop_ok.
Qed.

Lemma update_crop_data_ok w :
  store_ok INPUTS (crop_data w) ->
  store_ok INPUTS (crop_data (final (update_crop_data INPUTS w))).
Proof.
  intros Hok. unfold update_crop_data.
  destruct (crop_data w) as [|c0 cs] eqn:Hcs; [by simpl; rewrite Hcs|].
  destruct (input_int _ _) as [[[n|e] lines] out]; [|by simpl; rewrite Hcs].
  destruct (_ && _); [|by simpl; rewrite Hcs].
  pose proof (input_crop_data_ok (set_console lines out w)) as Hentered.
  destruct (input_crop_data _ _) as [w1|e w1]; simpl in Hentered;
    [|apply Hentered; by rewrite Hcs].
  rewrite Hcs in Hentered. specialize (Hentered Hok).
  destruct (list_pop (crop_data w1)) as [[last remaining]|] eqn:Hpop; [|done].
  destruct (list_pop_Forall _ _ _ _ Hentered Hpop) as [Hlast Hrem].
  unfold list_setitem.
  destruct (py_index remaining (n - 1)) as [i|]; simpl; [|done].
  by apply Forall_insert.
Qed.

Lemma delete_crop_data_ok w :
  store_ok INPUTS (crop_data w) ->
  store_ok INPUTS (crop_data (final (delete_crop_data w))).
Proof.
  intros Hok. unfold delete_crop_data.
  destruct (crop_data w) as [|c0 cs] eqn:Hcs; [by simpl; rewrite Hcs|].
  destruct (input_int _ _) as [[[n|e] lines] out]; [|by simpl; rewrite Hcs].
  cbn [crop_data set_console]. rewrite Hcs.
  destruct (_ && _); [|by simpl; rewrite Hcs].
  unfold list_delitem.
  destruct (py_index (c0 :: cs) (n - 1)) as [i|]; simpl; [|by rewrite Hcs].
  rewrite <- Hcs. apply Forall_delete. by rewrite Hcs.
Qed.

Lemma export_to_csv_store w :
  crop_data (final (export_to_csv w)) = crop_data w.
Proof.
  unfold export_to_csv. destruct (crop_data w) as [|c0 cs] eqn:Hcs; [done|].
  by destruct (write_rows _ _ _) as [[e|] written].
Qed.

Lemma import_from_csv_ok w :
  store_ok INPUTS (crop_data w) ->
  store_ok INPUTS (crop_data (final (import_from_csv INPUTS w))).
Proof.
  intros Hok. unfold import_from_csv.
  destruct (stdin w) as [|filename lines]; [done|].
  unfold open_read. cbn [files set_console].
  destruct (files w !! filename) as [file|]; cbn [rbind]; [|done].
  destruct (import_rows _ _ _) as [cs|e] eqn:Hrows; [|by destruct e].
  simpl. apply import_rows_Ok in Hrows as (cs' & -> & Hcs). simpl.
  induction Hcs as [|row c rows cs' Hrow _ IH]; constructor; [|done].
  by eapply import_row_ok.
Qed.

(** C8: every operation on the store keeps the invariant: in each record
    the crop type is a key of the catalog and the measured kinds are among
    the kinds the catalog lists for that crop type. *)
Theorem store_invariant_preserved (op : operation) w :
  store_ok INPUTS (crop_data w) ->
  store_ok INPUTS (crop_data (final (run INPUTS op w))).
Proof.
  intros Hok. destruct op; simpl.
  - by apply input_crop_data_ok.
  - by apply update_crop_data_ok.
  - by apply delete_crop_data_ok.
  - by rewrite export_to_csv_store.
  - by apply import_from_csv_ok.
Qed.
End Invariant.

Lemma example_store_ok :
  store_ok example_catalog [soybean_fertilized; soybean_plain; corn_fertilized].
Proof.
  repeat constructor; try key_in; eexists; (split; [reflexivity|key_in]).
Qed.

Lemma store_invariant_preserved_witness :
  store_ok example_catalog
    (crop_data
       (final (run example_catalog Update
                 (World [soybean_fertilized; soybean_plain; corn_fertilized]
                    ["1"; "2"; "100.0"; "100.0"; "8"; "50.0"] [] ∅)))).
Proof.
  apply (store_invariant_preserved example_catalog Update
           (World [soybean_fertilized; soybean_plain; corn_fertilized]
              ["1"; "2"; "100.0"; "100.0"; "8"; "50.0"] [] ∅)).
  exact example_store_ok.
Defined.

(** ** Column names *)

Lemma list_ascii_of_string_app (s1 s2 : string) :
  list_ascii_of_string (s1 +:+ s2)
  = list_ascii_of_string s1 ++ list_ascii_of_string s2.
Proof.
  induction s1 as [|a s1 IH]; [done|].
  change (String a s1 +:+ s2) with (String a (s1 +:+ s2)).
  cbn [list_ascii_of_string]. by rewrite IH.
Qed.

Lemma list_ascii_of_string_inj (s1 s2 : string) :
  list_ascii_of_string s1 = list_ascii_of_string s2 -> s1 = s2.
Proof.
  intros H. apply (f_equal string_of_list_ascii) in H.
  by rewrite !string_of_list_ascii_of_string in H.
Qed.

(** The characters of a column name, last first: the key, the underscore,
    the kind. *)
Lemma column_reversed (k key : string) :
  rev (list_ascii_of_string (column k key))
  = rev (list_ascii_of_string key)
    ++ "_"%char :: rev (list_ascii_of_string k).
Proof.
  unfold column. rewrite !list_ascii_of_string_app, !rev_app_distr.
  by rewrite <- app_assoc.
Qed.

Ltac columns_differ H :=
  apply (f_equal (fun s => rev (list_ascii_of_string s))) in H;
  rewrite ?column_reversed in H; cbn in H; discriminate H.

(** A column name determines its kind and its key. *)
Lemma column_inj (k1 k2 key1 key2 : string) :
  key1 ∈ input_keys -> key2 ∈ input_keys ->
  column k1 key1 = column k2 key2 -> k1 = k2 /\ key1 = key2.
Proof.
  unfold input_keys. rewrite !elem_of_cons, !elem_of_nil.
  intros H1 H2 H.
  assert (Hsame : forall key, column k1 key = column k2 key -> k1 = k2).
  { intros key E.
    apply (f_equal (fun s => rev (list_ascii_of_string s))) in E.
    rewrite !column_reversed in E. apply app_inv_head in E.
    injection E as E. apply (f_equal (@rev _)) in E.
    rewrite !rev_involutive in E. by apply list_ascii_of_string_inj. }
  destruct H1 as [->|[->|[->|[->|[]]]]], H2 as [->|[->|[->|[->|[]]]]];
    first [ split; [by eapply Hsame|done] | columns_differ H ].
Qed.

(** No column of a kind is one of the fixed columns. *)
Lemma column_not_fixed (k key : string) :
  key ∈ input_keys -> column k key ∉ fixed_columns.
Proof.
  unfold input_keys, fixed_columns. rewrite !elem_of_cons, !elem_of_nil.
  intros H1 H2.
  destruct H1 as [->|[->|[->|[->|[]]]]], H2 as [H|[H|[H|[H|[H|[]]]]]];
    columns_differ H.
Qed.

(** ** The column schema of the export *)

Section Schema.
Context {num : PyNum}.
Implicit Types (c : crop) (cs : list crop) (k : string).

Lemma add_fieldnames_columns (fieldnames : list string) c :
  add_fieldnames fieldnames c
  = fieldnames ++ flat_map kind_columns (dict_keys (c_inputs c)).
Proof.
  unfold add_fieldnames. generalize (dict_keys (c_inputs c)) as ks.
  intros ks. revert fieldnames.
  induction ks as [|k ks IH]; intros fieldnames; simpl.
  - by rewrite app_nil_r.
  - rewrite IH. by rewrite <- !app_assoc.
Qed.

(** What the two nested loops collect: a group per record and kind. *)
Lemma export_fieldnames_columns cs :
  export_fieldnames cs = fixed_columns ++ flat_map kind_columns (store_kinds cs).
Proof.
  unfold export_fieldnames, store_kinds. generalize fixed_columns as init.
  induction cs as [|c cs IH]; intros init; simpl.
  - by rewrite app_nil_r.
  - by rewrite IH, add_fieldnames_columns, flat_map_app, app_assoc.
Qed.
End Schema.

Lemma first_seen_elem (l : list string) x : x ∈ first_seen l <-> x ∈ l.
Proof.
  induction l as [|y l IH]; [done|]. cbn [first_seen].
  rewrite !elem_of_cons, list_elem_of_filter, IH.
  destruct (decide (x = y)); tauto.
Qed.

Lemma filter_all {A} (P : A -> Prop) `{!forall x, Decision (P x)}
    (l : list A) :
  (forall x, x ∈ l -> P x) -> filter P l = l.
Proof.
  induction l as [|x l IH]; intros Hall; [done|].
  rewrite filter_cons_True by (apply Hall; left). f_equal.
  apply IH. intros y Hy. apply Hall. by right.
Qed.

Lemma filter_none {A} (P : A -> Prop) `{!forall x, Decision (P x)}
    (l : list A) :
  (forall x, x ∈ l -> ~ P x) -> filter P l = [].
Proof.
  induction l as [|x l IH]; intros Hnone; [done|].
  rewrite filter_cons_False by (apply Hnone; left).
  apply IH. intros y Hy. apply Hnone. by right.
Qed.

Lemma first_seen_NoDup (l : list string) : NoDup l -> first_seen l = l.
Proof.
  induction 1 as [|x l Hx _ IH]; [done|]. cbn [first_seen]. rewrite IH.
  f_equal. apply filter_all. intros y Hy ->. done.
Qed.

Lemma first_seen_app (a b : list string) :
  first_seen (a ++ b)
  = first_seen a ++ filter (fun y => y ∉ a) (first_seen b).
Proof.
  induction a as [|x a IH]; cbn [app first_seen].
  - symmetry. apply filter_all. intros y _. apply not_elem_of_nil.
  - f_equal. rewrite IH, filter_app. f_equal.
    rewrite list_filter_filter. apply list_filter_iff.
    intros y. rewrite not_elem_of_cons. tauto.
Qed.

Lemma kind_columns_NoDup k : NoDup (kind_columns k).
Proof.
  unfold kind_columns. apply NoDup_fmap_2_strong; [|].
  - intros a b Ha Hb H. by destruct (column_inj k k a b Ha Hb H).
  - by apply (bool_decide_unpack (NoDup input_keys)).
Qed.

Lemma kind_columns_elem k x :
  x ∈ kind_columns k <-> exists key, key ∈ input_keys /\ x = column k key.
Proof.
  unfold kind_columns. rewrite list_elem_of_fmap.
  split; intros (key & H1 & H2); by exists key.
Qed.

Lemma filter_kind_columns k (ks : list string) :
  filter (fun y => y ∉ kind_columns k) (flat_map kind_columns ks)
  = flat_map kind_columns (filter (fun k' => k' <> k) ks).
Proof.
  induction ks as [|k' ks IH]; [done|].
  cbn [flat_map]. rewrite filter_app, IH.
  destruct (decide (k' = k)) as [->|Hne].
  - rewrite filter_cons_False by tauto.
    rewrite filter_none; [done|]. intros x Hx. tauto.
  - rewrite filter_cons_True by done. cbn [flat_map]. f_equal.
    apply filter_all. intros x Hx Hx'.
    apply kind_columns_elem in Hx as (key & Hkey & ->).
    apply kind_columns_elem in Hx' as (key' & Hkey' & E).
    by destruct (column_inj _ _ _ _ Hkey Hkey' E).
Qed.

Lemma first_seen_kind_columns (ks : list string) :
  first_seen (flat_map kind_columns ks)
  = flat_map kind_columns (first_seen ks).
Proof.
  induction ks as [|k ks IH]; [done|]. cbn [flat_map first_seen].
  rewrite first_seen_app, IH, filter_kind_columns.
  by rewrite (first_seen_NoDup _ (kind_columns_NoDup k)).
Qed.

Lemma fixed_columns_NoDup : NoDup fixed_columns.
Proof. by apply (bool_decide_unpack (NoDup fixed_columns)). Qed.

Section SchemaTheorems.
Context {num : PyNum}.
Implicit Types (cs : list crop).

(** C2, amended: the schema is the fixed columns followed by one group of
    four columns for each record, in store order, and each kind that record
    holds, in the record's order: a kind that several records hold
    contributes a group for each of them.  With the repeated columns
    dropped, the schema is the one the specification describes, and it is
    that schema as it stands when no kind is held twice. *)
Theorem export_schema cs :
  export_fieldnames cs
  = fixed_columns
    ++ flat_map (fun c => flat_map kind_columns (dict_keys (c_inputs c))) cs /\
  first_seen (export_fieldnames cs) = union_schema cs /\
  (NoDup (store_kinds cs) -> export_fieldnames cs = union_schema cs).
Proof.
  assert (Hseen : first_seen (export_fieldnames cs) = union_schema cs).
  { rewrite export_fieldnames_columns. unfold union_schema.
    rewrite first_seen_app, (first_seen_NoDup _ fixed_columns_NoDup).
    f_equal. rewrite first_seen_kind_columns. apply filter_all.
    intros x Hx. apply elem_of_flat_map in Hx as (k & _ & Hx).
    apply kind_columns_elem in Hx as (key & Hkey & ->).
    by apply column_not_fixed. }
  split; [|split; [exact Hseen|]].
  - rewrite export_fieldnames_columns. f_equal. unfold store_kinds.
    clear Hseen. induction cs as [|c cs IH]; [done|]. cbn [flat_map].
    by rewrite flat_map_app, IH.
  - intros Hnodup. rewrite export_fieldnames_columns. unfold union_schema.
    by rewrite (first_seen_NoDup _ Hnodup).
Qed.
End SchemaTheorems.

Lemma export_schema_witness :
  NoDup (store_kinds [soybean_fertilized; soybean_plain]) /\
  export_fieldnames [soybean_fertilized; soybean_plain]
  = union_schema [soybean_fertilized; soybean_plain].
Proof.
  assert (H : NoDup (store_kinds [soybean_fertilized; soybean_plain])).
  { apply NoDup_singleton. }
  split; [exact H|].
  exact (proj2 (proj2 (export_schema [soybean_fertilized; soybean_plain])) H).
Defined.

Lemma shared_kind_schema_counterexample :
  export_fieldnames [soybean_fertilized; corn_fertilized]
  <> union_schema [soybean_fertilized; corn_fertilized].
Proof. vm_compute. discriminate. Qed.

(** ** Export followed by import *)

(** Decide each comparison of two column names in the goal; where they are
    equal, so are their kinds and keys. *)
Ltac split_column_eq :=
  repeat match goal with
  | |- context [decide (column ?a ?x = column ?b ?y)] =>
      let Hd := fresh "Hd" in
      destruct (decide (column a x = column b y)) as [Hd|Hd];
      [ apply column_inj in Hd as [? ?]; [ | try done; key_in ..] | ]
  end.

Section RoundTrip.
Context {num : PyNum}.
Variable INPUTS : dict (dict input_info).
Implicit Types (c : crop) (cs : list crop) (k key : string).

Lemma export_row_fold c :
  export_row c = fold_left set_input_columns (c_inputs c) (fixed_row c).
Proof. reflexivity. Qed.

Lemma set_input_columns_get_kind row k0 m0 k key :
  key ∈ input_keys ->
  dict_get (column k key) (set_input_columns row (k0, m0))
  = if decide (k = k0) then Some (field_value key m0)
    else dict_get (column k key) row.
Proof.
  intros Hkey. unfold set_input_columns. rewrite !dict_get_set.
  destruct (decide (k = k0)) as [->|Hne].
  - unfold input_keys in Hkey. rewrite !elem_of_cons, elem_of_nil in Hkey.
    destruct Hkey as [->|[->|[->|[->|[]]]]]; split_column_eq;
      solve [ discriminate | reflexivity | congruence ].
  - split_column_eq; solve [ done | congruence ].
Qed.

Lemma set_input_columns_get_fixed row k0 m0 x :
  x ∈ fixed_columns ->
  dict_get x (set_input_columns row (k0, m0)) = dict_get x row.
Proof.
  intros Hx. unfold set_input_columns.
  rewrite !dict_get_set_ne; [done|..];
    intros ->; revert Hx; apply column_not_fixed; key_in.
Qed.

Lemma set_input_columns_keys row k0 m0 x :
  x ∈ dict_keys (set_input_columns row (k0, m0)) ->
  x ∈ dict_keys row \/ x ∈ kind_columns k0.
Proof.
  unfold set_input_columns. rewrite !dict_keys_set, kind_columns_elem.
  intros [->|[->|[->|[->|?]]]]; [right; eexists; split; [|done]; key_in..|by left].
Qed.

Lemma fill_row_get_kind (items : dict measurement) (row : dict value) k key :
  NoDup (dict_keys items) -> key ∈ input_keys ->
  dict_get (column k key) (fold_left set_input_columns items row)
  = match dict_get k items with
    | Some m => Some (field_value key m)
    | None => dict_get (column k key) row
    end.
Proof.
  intros Hnodup Hkey. revert row.
  induction items as [|[k0 m0] items IH]; intros row; [done|].
  cbn [dict_keys map fst] in Hnodup.
  apply NoDup_cons in Hnodup as [Hk0 Hnodup].
  cbn [fold_left dict_get]. rewrite (IH Hnodup).
  rewrite set_input_columns_get_kind by done.
  destruct (decide (k = k0)) as [->|Hne]; [|done].
  apply dict_get_None_keys in Hk0. by rewrite Hk0.
Qed.

Lemma fill_row_get_fixed (items : dict measurement) (row : dict value) x :
  x ∈ fixed_columns ->
  dict_get x (fold_left set_input_columns items row) = dict_get x row.
Proof.
  intros Hx. revert row.
  induction items as [|[k0 m0] items IH]; intros row; [done|].
  cbn [fold_left]. by rewrite IH, set_input_columns_get_fixed.
Qed.

Lemma fill_row_keys (items : dict measurement) (row : dict value) x :
  x ∈ dict_keys (fold_left set_input_columns items row) ->
  x ∈ dict_keys row \/ exists k, k ∈ dict_keys items /\ x ∈ kind_columns k.
Proof.
  revert row. induction items as [|[k0 m0] items IH]; intros row; [by left|].
  cbn [fold_left]. intros Hx. apply IH in Hx as [Hx|(k & Hk & Hx)].
  - apply set_input_columns_keys in Hx as [Hx|Hx]; [by left|].
    right. exists k0. split; [left|done].
  - right. exists k. split; [by right|done].
Qed.

(** Which field names the schema holds. *)
Lemma fixed_in_fieldnames cs x :
  x ∈ fixed_columns -> x ∈ export_fieldnames cs.
Proof.
  intros Hx. rewrite export_fieldnames_columns. apply elem_of_app. by left.
Qed.

Lemma column_in_fieldnames cs k key :
  key ∈ input_keys ->
  column k key ∈ export_fieldnames cs <-> k ∈ store_kinds cs.
Proof.
  intros Hkey. rewrite export_fieldnames_columns, elem_of_app.
  rewrite elem_of_flat_map. split.
  - intros [Hfix|(k' & Hk' & Hcol)].
    + by apply column_not_fixed in Hfix.
    + apply kind_columns_elem in Hcol as (key' & Hkey' & E).
      by apply column_inj in E as [-> _].
  - intros Hk. right. exists k. split; [done|].
    apply kind_columns_elem. by exists key.
Qed.

Lemma store_kinds_elem cs c k :
  c ∈ cs -> k ∈ dict_keys (c_inputs c) -> k ∈ store_kinds cs.
Proof.
  intros Hc Hk. unfold store_kinds. apply elem_of_flat_map. by exists c.
Qed.

(** [writerow] never raises in the export: every key of the row dict was
    collected into the field names. *)
Lemma writerow_export cs c :
  c ∈ cs ->
  writerow (export_fieldnames cs) (export_row c)
  = Ok (map (export_cell c) (export_fieldnames cs)).
Proof.
  intros Hc. unfold writerow.
  assert (forallb (fun k => bool_decide (k ∈ export_fieldnames cs))
            (dict_keys (export_row c)) = true) as ->; [|done].
  apply forallb_forall. intros x Hx. apply bool_decide_eq_true_2.
  apply list_elem_of_In in Hx. rewrite export_row_fold in Hx.
  apply fill_row_keys in Hx as [Hx|(k & Hk & Hx)].
  - by apply fixed_in_fieldnames.
  - apply kind_columns_elem in Hx as (key & Hkey & ->).
    apply column_in_fieldnames; [done|]. by eapply store_kinds_elem.
Qed.

Lemma write_rows_export cs cs' (written : table) :
  cs' ⊆ cs ->
  write_rows (export_fieldnames cs) cs' written
  = (None, written ++ map (fun c => map (export_cell c) (export_fieldnames cs)) cs').
Proof.
  revert written. induction cs' as [|c cs' IH]; intros written Hsub.
  - by rewrite app_nil_r.
  - cbn [write_rows]. rewrite writerow_export by (apply Hsub; left).
    rewrite IH by (intros x Hx; apply Hsub; by right).
    by rewrite <- app_assoc.
Qed.

(** What export leaves behind on a store that has records. *)
Lemma export_to_csv_file cs lines out fs :
  cs <> [] ->
  export_to_csv (World cs lines out fs)
  = Normal
      (World cs lines
         (out ++ [Text "Data exported to crop_data.csv successfully."])
         (<["crop_data.csv" :=
              export_fieldnames cs
              :: map (fun c => map (export_cell c) (export_fieldnames cs)) cs]>
            fs)).
Proof.
  intros Hne. unfold export_to_csv. cbn [crop_data stdin stdout files].
  destruct cs as [|c0 cs0] eqn:Hcs; [done|]. rewrite <- Hcs.
  by rewrite write_rows_export.
Qed.

(** Reading back a row that has one cell per field name. *)
Lemma zip_row_get (f : string -> string) (fieldnames : list string)
    (d : dict (option string)) k :
  dict_get k (fold_left (fun d '(k, cell) => dict_set k (Some cell) d)
                (zip fieldnames (map f fieldnames)) d)
  = if decide (k ∈ fieldnames) then Some (Some (f k)) else dict_get k d.
Proof.
  revert d. induction fieldnames as [|x fieldnames IH]; intros d.
  - by rewrite decide_False by apply not_elem_of_nil.
  - cbn [map zip zip_with fold_left]. rewrite IH, dict_get_set.
    destruct (decide (k ∈ fieldnames)) as [Hin|Hnotin].
    + rewrite decide_True; [done|by right].
    + destruct (decide (k = x)) as [->|Hne].
      * rewrite decide_True; [done|left].
      * rewrite decide_False; [done|]. rewrite elem_of_cons. tauto.
Qed.

Lemma reader_row_get (f : string -> string) (fieldnames : list string) k :
  dict_get k (reader_row fieldnames (map f fieldnames))
  = if decide (k ∈ fieldnames) then Some (Some (f k)) else None.
Proof.
  unfold reader_row. rewrite length_map, drop_all. cbn [fold_left].
  by rewrite zip_row_get.
Qed.

Lemma DictReader_export cs :
  DictReader (export_fieldnames cs
              :: map (fun c => map (export_cell c) (export_fieldnames cs)) cs)
  = map (exported_row cs) cs.
Proof.
  unfold DictReader. rewrite filter_all.
  - by rewrite map_map.
  - intros cells Hcells. apply list_elem_of_fmap in Hcells as (c & -> & _).
    rewrite export_fieldnames_columns. done.
Qed.

Lemma exported_row_get cs c k :
  dict_get k (exported_row cs c)
  = if decide (k ∈ export_fieldnames cs) then Some (Some (export_cell c k))
    else None.
Proof. apply reader_row_get. Qed.

Lemma exported_row_fixed cs c x :
  x ∈ fixed_columns ->
  dict_item x (exported_row cs c)
  = Ok (Some (match dict_get x (fixed_row c) with
              | Some v => cell_of_value v
              | None => ""
              end)).
Proof.
  intros Hx. unfold dict_item. rewrite exported_row_get.
  rewrite decide_True by by apply fixed_in_fieldnames.
  unfold export_cell. by rewrite export_row_fold, fill_row_get_fixed.
Qed.

Lemma import_fixed_exported cs c :
  import_fixed (exported_row cs c)
  = Ok (Some (c_type c), c_length c, c_width c, c_area c, c_num_rows c).
Proof.
  unfold import_fixed.
  rewrite !exported_row_fixed by key_in.
  cbn [fixed_row dict_get rbind to_float to_int cell_of_value].
  repeat (rewrite ?decide_True by done; rewrite ?decide_False by done).
  cbn [rbind to_float to_int cell_of_value].
  by rewrite !py_float_str, py_int_str.
Qed.

Lemma exported_row_keys cs c x :
  x ∈ dict_keys (exported_row cs c) <-> x ∈ export_fieldnames cs.
Proof.
  rewrite <- dict_has_keys. unfold dict_has. rewrite exported_row_get.
  by destruct (decide (x ∈ export_fieldnames cs)).
Qed.

Lemma exported_row_kind cs c k m key :
  c ∈ cs -> NoDup (dict_keys (c_inputs c)) ->
  dict_get k (c_inputs c) = Some m -> key ∈ input_keys ->
  dict_item (column k key) (exported_row cs c)
  = Ok (Some (cell_of_value (field_value key m))).
Proof.
  intros Hc Hnodup Hm Hkey. unfold dict_item. rewrite exported_row_get.
  rewrite decide_True.
  - unfold export_cell.
    by rewrite export_row_fold, fill_row_get_kind, Hm.
  - apply column_in_fieldnames; [done|].
    eapply store_kinds_elem; [done|]. by eapply dict_get_Some_keys.
Qed.

Lemma field_value_keys (m : measurement) :
  field_value "name" m = value_of_text (m_name m) /\
  field_value "amount_per_ha" m = VFloat (m_amount_per_ha m) /\
  field_value "total_amount" m = VFloat (m_total_amount m) /\
  field_value "unit" m = value_of_text (m_unit m).
Proof. by repeat split. Qed.

Lemma import_measurement_exported cs c k m :
  c ∈ cs -> record_wf c -> dict_get k (c_inputs c) = Some m ->
  import_measurement (exported_row cs c) k = Ok m.
Proof.
  intros Hc [Hnodup Hnamed] Hm. unfold import_measurement.
  rewrite !(exported_row_kind cs c k m) by (done || key_in).
  destruct (Hnamed _ _ Hm) as [[name Hname] [unit Hunit]].
  destruct (field_value_keys m) as (-> & -> & -> & ->).
  destruct m as [mn a t mu]. simpl in Hname, Hunit. subst mn mu.
  cbn [rbind to_float cell_of_value value_of_text m_name m_unit
         m_amount_per_ha m_total_amount].
  by rewrite !py_float_str.
Qed.

Lemma import_inputs_total row kinds acc :
  (forall k, k ∈ kinds -> dict_has (column k "name") row = true ->
             exists m, import_measurement row k = Ok m) ->
  exists d, import_inputs row kinds acc = Ok d.
Proof.
  revert acc. induction kinds as [|k kinds IH]; intros acc Hall.
  - by exists acc.
  - cbn [import_inputs].
    assert (Hrest : forall k', k' ∈ kinds ->
              dict_has (column k' "name") row = true ->
              exists m, import_measurement row k' = Ok m).
    { intros k' Hk'. apply Hall. by right. }
    destruct (dict_has (column k "name") row) eqn:Hhas; [|by apply IH].
    destruct (Hall k) as [m ->]; [left|done|]. cbn [rbind]. by apply IH.
Qed.

Lemma import_row_exported cs c :
  c ∈ cs -> crop_ok INPUTS c -> record_wf c -> uniform INPUTS cs ->
  exists c', import_row INPUTS (exported_row cs c) = Ok c' /\ same_content c c'.
Proof.
  intros Hc (_ & available & Hav & Hsub) Hwf Huni.
  assert (Hhave : forall k,
            k ∈ dict_keys available ->
            column k "name" ∈ dict_keys (exported_row cs c) ->
            exists m, dict_get k (c_inputs c) = Some m /\
                      import_measurement (exported_row cs c) k = Ok m).
  { intros k Hk Hcol. apply exported_row_keys in Hcol.
    apply column_in_fieldnames in Hcol; [|key_in].
    pose proof (Huni c available k Hc Hav Hk Hcol) as Hin.
    apply dict_has_keys in Hin. unfold dict_has in Hin.
    destruct (dict_get k (c_inputs c)) as [m|] eqn:Hm; [|done].
    exists m. split; [done|]. by apply import_measurement_exported. }
  destruct (import_inputs_total (exported_row cs c) (dict_keys available) [])
    as [d Hd].
  { intros k Hk Hhas. apply dict_has_keys in Hhas.
    destruct (Hhave k Hk Hhas) as (m & _ & Hm). by exists m. }
  exists (Crop (c_type c) (c_length c) (c_width c) (c_area c) (c_num_rows c) d).
  split.
  - unfold import_row. rewrite import_fixed_exported. cbn [rbind catalog_item].
    unfold dict_item. rewrite Hav. cbn [rbind fst snd]. by rewrite Hd.
  - repeat split; try done. intros k. cbn [c_inputs].
    pose proof (import_inputs_get _ _ _ _ k Hd) as Hget.
    destruct (decide (k ∈ dict_keys available /\ _)) as [[Hk Hcol]|Hnot].
    + destruct Hget as (m' & Hm' & ->).
      destruct (Hhave k Hk Hcol) as (m & -> & Hm). congruence.
    + rewrite Hget. cbn [dict_get].
      destruct (dict_get k (c_inputs c)) as [m|] eqn:Hm; [|done].
      exfalso. apply Hnot. apply dict_get_Some_keys in Hm. split.
      * by apply Hsub.
      * apply exported_row_keys, column_in_fieldnames; [key_in|].
        by eapply store_kinds_elem.
Qed.

(** X15: on a store whose records all hold the same kinds, export followed
    by import gives the store back, whatever store the import starts from:
    the records come back in order with the same type, dimensions, area,
    row count and measurements.  The cells of the exported file are to hold
    no carriage return: the import opens the file with line ends
    translated, which would turn one inside a cell into a line feed. *)
Theorem export_import_uniform_store cs lines out fs store0 lines' out' :
  cs <> [] -> store_ok INPUTS cs -> Forall record_wf cs -> uniform INPUTS cs ->
  let exported := final (export_to_csv (World cs lines out fs)) in
  (forall file, files exported !! "crop_data.csv" = Some file ->
                plain_table file) ->
  exists cs',
    import_from_csv INPUTS
      (World store0 ("crop_data.csv" :: lines') out' (files exported))
    = Normal
        (World cs' lines' (out' ++ [Imported (length cs') "crop_data.csv"])
           (files exported)) /\
    Forall2 same_content cs cs'.
Proof.
  intros Hne Hok Hwf Huni exported _. subst exported.
  rewrite (export_to_csv_file _ _ _ _ Hne).
  cbn zeta. cbn [final files].
  assert (Hrows : exists cs',
            Forall2 (fun row c' => import_row INPUTS row = Ok c')
              (map (exported_row cs) cs) cs' /\
            Forall2 same_content cs cs').
  { assert (Hsub : cs ⊆ cs) by done. revert Hsub.
    generalize cs at 1 4 5 as l. intros l Hsub.
    induction l as [|c l IH]; [by exists []|].
    destruct IH as (cs' & Hrows & Hsame).
    { intros x Hx. apply Hsub. by right. }
    assert (Hc : c ∈ cs) by (apply Hsub; left).
    destruct (import_row_exported cs c Hc) as (c' & Hrow & Hcont).
    { eapply Forall_forall in Hok; done. }
    { eapply Forall_forall in Hwf; done. }
    { done. }
    exists (c' :: cs'). split; by constructor. }
  destruct Hrows as (cs' & Hrows & Hsame). exists cs'. split; [|done].
  erewrite import_from_csv_file; [|reflexivity|apply lookup_insert_eq].
  rewrite DictReader_export.
  assert (import_rows INPUTS (map (exported_row cs) cs) [] = Ok cs') as ->.
  { apply import_rows_Ok. by exists cs'. }
  reflexivity.
Qed.
End RoundTrip.

(** The two records of the mixed store as the console yields them: Soybean
    with 100 of fertilizer and no pesticide, then Soybean with neither. *)
Example mixed_store_entered :
  crop_data
    (final (input_crop_data example_catalog
       (final (input_crop_data example_catalog
          (World [] ["1"; "200"; "100"; "10"; "100"; "0";
                     "1"; "300"; "100"; "12"; "0"; "0"] [] ∅)))))
  = [soybean_fertilized; soybean_plain].
Proof. reflexivity. Qed.

(** C1 on the store of two Soybean records of which only the first holds
    fertilizer: export writes [mixed_file], with empty fertilizer cells for
    the second record, and importing that file stops at those cells with
    the invalid-data message; the store is whatever it was before the
    import, not the exported one. *)
Theorem roundtrip_fails_on_mixed_store :
  let store := [soybean_fertilized; soybean_plain] in
  let exported := final (export_to_csv (World store [] [] ∅)) in
  files exported !! "crop_data.csv" = Some mixed_file /\
  (forall store0,
      import_from_csv example_catalog
        (World store0 ["crop_data.csv"] [] (files exported))
      = Normal (World store0 [] [InvalidData ""] (files exported))) /\
  crop_data
    (final (import_from_csv example_catalog
              (World [] ["crop_data.csv"] [] (files exported))))
  <> store.
Proof.
  cbn zeta. split; [by vm_compute|]. split; [|by vm_compute].
  intros store0. by vm_compute.
Qed.

Lemma example_uniform :
  uniform example_catalog [soybean_fertilized; corn_fertilized].
Proof.
  intros c available k Hc Hav Hk Hkinds.
  assert (Hfert : k = "fertilizer").
  { vm_compute in Hkinds. by repeat (apply elem_of_cons in Hkinds as [?|Hkinds];
      [done|]); apply elem_of_nil in Hkinds. }
  subst k.
  repeat (apply elem_of_cons in Hc as [->|Hc]; [key_in|]).
  by apply elem_of_nil in Hc.
Qed.

Lemma example_records_wf :
  Forall record_wf [soybean_fertilized; corn_fertilized].
Proof.
  repeat apply Forall_cons_2; [| |apply Forall_nil_2].
  all: split; [key_in|].
  all: intros k m Hm; cbn [c_inputs soybean_fertilized corn_fertilized
                             dict_get] in Hm.
  all: destruct (decide (k = "fertilizer")); [|done].
  all: injection Hm as <-; split; by eexists.
Qed.

Lemma export_import_uniform_store_witness :
  exists cs',
    crop_data
      (final (import_from_csv example_catalog
         (World [] ["crop_data.csv"] []
            (files (final (export_to_csv
               (World [soybean_fertilized; corn_fertilized] [] [] ∅))))))) = cs' /\
    Forall2 same_content [soybean_fertilized; corn_fertilized] cs'.
Proof.
  destruct (export_import_uniform_store example_catalog
              [soybean_fertilized; corn_fertilized] [] [] ∅ [] [] [])
    as (cs' & Hrun & Hsame).
  - discriminate.
  - repeat constructor; try key_in; eexists; (split; [reflexivity|key_in]).
  - exact example_records_wf.
  - exact example_uniform.
  - intros file Hfile. vm_compute in Hfile. injection Hfile as <-. key_in.
  - exists cs'. split; [|exact Hsame]. by rewrite Hrun.
Defined.


(** ** Entering, updating and deleting: errors and composition *)

Section ConsoleOperations.
Context {num : PyNum}.
Variable INPUTS : dict (dict input_info).
Implicit Types (w : world) (c : crop) (i : Z).

Lemma advances_refl {A} (r : result A) lines out : advances lines out (r, lines, out).
Proof. by split. Qed.

Lemma advances_step {A} (r : console A) l lines out out' :
  advances lines (out ++ out') r -> advances (l :: lines) out r.
Proof.
  intros [Hs Hp]. split; [by apply suffix_cons_r|].
  etrans; [|exact Hp]. by apply prefix_app_r.
Qed.

Lemma advances_trans {A} (r : console A) lines lines' out out' :
  lines' `suffix_of` lines -> out `prefix_of` out' ->
  advances lines' out' r -> advances lines out r.
Proof. intros Hs Hp [Hs' Hp']. split; by etrans. Qed.

Lemma input_float_advances lines out : advances lines out (input_float lines out).
Proof.
  destruct lines as [|l lines]; [by split|]. simpl.
  destruct (py_float l); (split; [by apply suffix_cons_r|done]).
Qed.

Lemma input_int_advances lines out : advances lines out (input_int lines out).
Proof.
  destruct lines as [|l lines]; [by split|]. simpl.
  destruct (py_int l); (split; [by apply suffix_cons_r|done]).
Qed.

Lemma choose_crop_type_advances lines out :
  advances lines out (choose_crop_type INPUTS lines out).
Proof.
  revert out. induction lines as [|l lines IH]; intros out; [by split|].
  cbn [choose_crop_type].
  destruct (py_int l) as [choice|]; [|by eapply advances_step].
  destruct (_ && _); [|by eapply advances_step].
  destruct (_ !! _); (split; [by apply suffix_cons_r|done]).
Qed.

Lemma ask_amount_advances lines out : advances lines out (ask_amount lines out).
Proof.
  revert out. induction lines as [|l lines IH]; intros out; [by split|].
  cbn [ask_amount].
  destruct (py_float l) as [a|]; [|by eapply advances_step].
  destruct (float_le _ a); [|by eapply advances_step].
  split; [by apply suffix_cons_r|done].
Qed.

Lemma ask_inputs_advances area available acc lines out :
  advances lines out (ask_inputs area available acc lines out).
Proof.
  revert acc lines out.
  induction available as [|[k info] available IH]; intros acc lines out;
    [by split|].
  cbn [ask_inputs]. pose proof (ask_amount_advances lines out) as Hask.
  destruct (ask_amount lines out) as [[[a|e] lines1] out1]; [|done].
  destruct Hask as [Hs Hp]. by eapply advances_trans.
Qed.

Lemma read_crop_advances lines out :
  advances lines out (read_crop INPUTS lines out).
Proof.
  unfold read_crop.
  pose proof (choose_crop_type_advances lines
                (out ++ [Text "Select crop type:"]
                     ++ crop_menu 1 (CROP_TYPES INPUTS))) as H1.
  destruct (choose_crop_type _ _ _) as [[[t|e] l1] o1];
    [|by eapply advances_trans; [done|by apply prefix_app_r|]].
  apply (advances_trans _ _ l1 _ o1);
    [apply H1|etrans; [by apply prefix_app_r|apply H1]|].
  pose proof (input_float_advances l1 o1) as H2.
  destruct (input_float l1 o1) as [[[len|e] l2] o2]; [|done].
  apply (advances_trans _ _ l2 _ o2); [apply H2..|].
  pose proof (input_float_advances l2 o2) as H3.
  destruct (input_float l2 o2) as [[[wd|e] l3] o3]; [|done].
  apply (advances_trans _ _ l3 _ o3); [apply H3..|].
  pose proof (input_int_advances l3 o3) as H4.
  destruct (input_int l3 o3) as [[[n|e] l4] o4]; [|done].
  apply (advances_trans _ _ l4 _ o4); [apply H4..|].
  destruct (dict_item t INPUTS) as [available|e]; [|by split].
  pose proof (ask_inputs_advances (calculate_area len wd) available [] l4
                (o4 ++ [Text "Enter the quantity for each input (or 0 to skip):"]))
    as H5.
  destruct (ask_inputs _ _ _ _ _) as [[[d|e] l5] o5];
    (split; [apply H5|etrans; [by apply prefix_app_r|apply H5]]).
Qed.

Lemma choose_crop_type_error lines out e lines' out' :
  choose_crop_type INPUTS lines out = (Raise e, lines', out') -> e = EOFError.
Proof.
  revert out. induction lines as [|l lines IH]; intros out;
    cbn [choose_crop_type]; [by intros [= <- _ _]|].
  destruct (py_int l) as [choice|]; [|apply IH].
  destruct (_ && _) eqn:Hrange; [|apply IH].
  apply andb_prop in Hrange as [H1 H2].
  apply Z.leb_le in H1. apply Z.leb_le in H2.
  destruct (CROP_TYPES INPUTS !! Z.to_nat (choice - 1)) eqn:Hlook; [done|].
  apply lookup_ge_None in Hlook. lia.
Qed.

Lemma ask_amount_error lines out e lines' out' :
  ask_amount lines out = (Raise e, lines', out') -> e = EOFError.
Proof.
  revert out. induction lines as [|l lines IH]; intros out;
    cbn [ask_amount]; [by intros [= <- _ _]|].
  destruct (py_float l) as [a|]; [|apply IH].
  destruct (float_le _ a); [done|apply IH].
Qed.

Lemma ask_inputs_error area available acc lines out e lines' out' :
  ask_inputs area available acc lines out = (Raise e, lines', out') ->
  e = EOFError.
Proof.
  revert acc lines out.
  induction available as [|[k info] available IH]; intros acc lines out;
    cbn [ask_inputs]; [done|].
  destruct (ask_amount lines out) as [[[a|e0] lines1] out1] eqn:Hask.
  - apply IH.
  - intros [= <- _ _]. by eapply ask_amount_error.
Qed.

Lemma input_float_error lines out e lines' out' :
  input_float lines out = (Raise e, lines', out') -> console_error e.
Proof.
  destruct lines as [|l lines]; simpl; [intros [= <- _ _]; by left|].
  destruct (py_float l); [done|]. intros [= <- _ _]. right. by exists l.
Qed.

Lemma input_int_error lines out e lines' out' :
  input_int lines out = (Raise e, lines', out') -> console_error e.
Proof.
  destruct lines as [|l lines]; simpl; [intros [= <- _ _]; by left|].
  destruct (py_int l); [done|]. intros [= <- _ _]. right. by exists l.
Qed.

Lemma read_crop_error lines out e lines' out' :
  read_crop INPUTS lines out = (Raise e, lines', out') -> console_error e.
Proof.
  unfold read_crop.
  destruct (choose_crop_type _ _ _) as [[[t|e0] l1] o1] eqn:Ht.
  2:{ intros [= <- _ _]. left. by eapply choose_crop_type_error. }
  destruct (input_float l1 o1) as [[[len|e0] l2] o2] eqn:H2.
  2:{ intros [= <- _ _]. by eapply input_float_error. }
  destruct (input_float l2 o2) as [[[wd|e0] l3] o3] eqn:H3.
  2:{ intros [= <- _ _]. by eapply input_float_error. }
  destruct (input_int l3 o3) as [[[n|e0] l4] o4] eqn:H4.
  2:{ intros [= <- _ _]. by eapply input_int_error. }
  apply choose_crop_type_listed in Ht. apply dict_has_keys in Ht.
  unfold dict_has in Ht. unfold dict_item.
  destruct (dict_get t INPUTS) as [available|]; [|done].
  destruct (ask_inputs _ _ _ _ _) as [[[d|e0] l5] o5] eqn:H5; [done|].
  intros [= <- _ _]. left. by eapply ask_inputs_error.
Qed.

Lemma input_crop_data_outcome w :
  console_only w (input_crop_data INPUTS w) /\
  match input_crop_data INPUTS w with
  | Normal w' =>
      exists c, crop_data w' = crop_data w ++ [c] /\
                last (stdout w') = Some (Text "Data added successfully.")
  | Uncaught e w' => crop_data w' = crop_data w /\ console_error e
  end.
Proof.
  unfold input_crop_data, console_only.
  pose proof (read_crop_advances (stdin w) (stdout w)) as [Hs Hp].
  destruct (read_crop INPUTS (stdin w) (stdout w)) as [[[c|e] lines] out] eqn:Hc;
    simpl in *.
  - repeat split; [done|by apply prefix_app_r|].
    exists c. split; [done|]. apply last_snoc.
  - repeat split; try done. by eapply read_crop_error.
Qed.

(** X1: entering a record is all or nothing.  When [input_crop_data]
    returns, exactly one record has been added after the records that were
    there, which are as they were, and the last message is the
    confirmation.  When it does not, the exception is the end of the input
    or a line that does not convert, never a lookup error, and the store is
    as it was.  Either way it only reads input from the front, only adds
    output at the end, and touches no file. *)
Theorem input_crop_data_all_or_nothing w :
  console_only w (input_crop_data INPUTS w) /\
  match input_crop_data INPUTS w with
  | Normal w' =>
      exists c, crop_data w' = crop_data w ++ [c] /\
                last (stdout w') = Some (Text "Data added successfully.")
  | Uncaught e w' => crop_data w' = crop_data w /\ console_error e
  end.
Proof. apply input_crop_data_outcome. Qed.

Lemma dict_keys_set_list {V} k (v : V) (d : dict V) :
  dict_keys (dict_set k v d)
  = if decide (k ∈ dict_keys d) then dict_keys d else dict_keys d ++ [k].
Proof.
  unfold dict_keys. induction d as [|[k0 v0] d IH]; [done|]. cbn [dict_set].
  destruct (decide (k = k0)) as [->|Hne].
  - rewrite decide_True; [done|left].
  - cbn [map fst]. rewrite IH.
    destruct (decide (k ∈ map fst d)) as [Hin|Hnotin].
    + rewrite decide_True; [done|by right].
    + rewrite decide_False; [done|]. rewrite elem_of_cons. tauto.
Qed.

Lemma dict_set_NoDup {V} k (v : V) (d : dict V) :
  NoDup (dict_keys d) -> NoDup (dict_keys (dict_set k v d)).
Proof.
  intros Hd. rewrite dict_keys_set_list.
  destruct (decide (k ∈ dict_keys d)); [done|].
  apply NoDup_app. split; [done|]. split; [|apply NoDup_singleton].
  intros x Hx Hx'. apply list_elem_of_singleton in Hx' as ->. done.
Qed.

Lemma ask_amount_accepted lines out a lines' out' :
  ask_amount lines out = (Ok a, lines', out') ->
  float_le (float_of_int 0) a = true.
Proof.
  revert out. induction lines as [|l lines IH]; intros out;
    cbn [ask_amount]; [done|].
  destruct (py_float l) as [a0|]; [|apply IH].
  destruct (float_le _ a0) eqn:Hle; [|apply IH]. by intros [= <- _ _].
Qed.

Lemma entered_measurement_more area k0 info0 available k m :
  entered_measurement area available k m ->
  entered_measurement area ((k0, info0) :: available) k m.
Proof.
  intros (H1 & H2 & H3 & info & Hin & H4). repeat split; try done.
  exists info. split; [by right|done].
Qed.

Lemma ask_inputs_entered area available acc lines out d lines' out' :
  ask_inputs area available acc lines out = (Ok d, lines', out') ->
  (NoDup (dict_keys acc) -> NoDup (dict_keys d)) /\
  forall k m, dict_get k d = Some m ->
              dict_get k acc = Some m \/
              entered_measurement area available k m.
Proof.
  revert acc lines out.
  induction available as [|[k0 info] available IH]; intros acc lines out;
    cbn [ask_inputs].
  - intros [= <- _ _]. split; [done|]. intros k m Hm. by left.
  - destruct (ask_amount lines out) as [[[a|e] lines1] out1] eqn:Hask; [|done].
    apply ask_amount_accepted in Hask. intros Hrest.
    apply IH in Hrest as [Hnodup Hget]. split.
    + intros Hacc. apply Hnodup.
      destruct (float_lt _ a); [by apply dict_set_NoDup|done].
    + intros k m Hm. destruct (Hget k m Hm) as [Hacc|Hent].
      2:{ right. by apply entered_measurement_more. }
      destruct (float_lt (float_of_int 0) a) eqn:Hlt; [|by left].
      rewrite dict_get_set in Hacc.
      destruct (decide (k = k0)) as [->|Hne]; [|by left].
      injection Hacc as <-. right. repeat split; try done.
      exists info. split; [left|done].
Qed.

(** X2: what a record entered at the console holds.  Its area is computed
    from its length and width; its measurements form a proper dict with
    string names and units; and each measurement it holds is for a kind of
    its crop type in the catalog, with an amount above zero, the total
    computed from the area and the amount, and the name and unit of the
    catalog.  A kind answered with 0 is therefore never recorded. *)
Theorem read_crop_entered lines out c lines' out' :
  read_crop INPUTS lines out = (Ok c, lines', out') ->
  c_area c = calculate_area (c_length c) (c_width c) /\
  record_wf c /\
  exists available,
    dict_get (c_type c) INPUTS = Some available /\
    forall k m, dict_get k (c_inputs c) = Some m ->
                entered_measurement (c_area c) available k m.
Proof.
  unfold read_crop.
  destruct (choose_crop_type _ _ _) as [[[t|e] l1] o1]; [|done].
  destruct (input_float l1 o1) as [[[len|e] l2] o2]; [|done].
  destruct (input_float l2 o2) as [[[wd|e] l3] o3]; [|done].
  destruct (input_int l3 o3) as [[[n|e] l4] o4]; [|done].
  unfold dict_item.
  destruct (dict_get t INPUTS) as [available|] eqn:Hav; [|done].
  destruct (ask_inputs _ _ _ _ _) as [[[d|e] l5] o5] eqn:Hd; [|done].
  intros [= <- _ _]. cbn [c_area c_length c_width c_type c_inputs].
  apply ask_inputs_entered in Hd as [Hnodup Hget].
  assert (Hent : forall k m, dict_get k d = Some m ->
            entered_measurement (calculate_area len wd) available k m).
  { intros k m Hm. by destruct (Hget k m Hm). }
  split; [done|]. split.
  - split; [apply Hnodup; constructor|]. cbn [c_inputs].
    intros k m Hm. destruct (Hent k m Hm) as (_ & _ & _ & info & _ & -> & ->).
    split; by eexists.
  - by exists available.
Qed.
Lemma console_only_refl w o :
  stdin (final o) = stdin w -> stdout w `prefix_of` stdout (final o) ->
  files (final o) = files w -> console_only w o.
Proof. intros Hs Hp Hf. split; [by rewrite Hs|done]. Qed.

Lemma input_int_outcome w :
  match input_int (stdin w) (stdout w) with
  | (Ok n, lines, out) =>
      exists line, stdin w = line :: lines /\ py_int line = Some n /\
                   out = stdout w
  | (Raise e, lines, out) =>
      console_error e /\ lines `suffix_of` stdin w /\ out = stdout w
  end.
Proof.
  unfold input_int. destruct (stdin w) as [|l lines].
  - split; [by left|done].
  - destruct (py_int l) eqn:Hl.
    + by exists l.
    + split; [right; by exists l|]. split; [by apply suffix_cons_r|done].
Qed.

Lemma update_crop_data_outcome w :
  console_only w (update_crop_data INPUTS w) /\
  length (crop_data (final (update_crop_data INPUTS w)))
  = length (crop_data w) /\
  match update_crop_data INPUTS w with
  | Normal w' =>
      crop_data w' = crop_data w \/
      exists (n : nat) c,
        (n < length (crop_data w))%nat /\
        crop_data w' = <[n := c]> (crop_data w) /\
        last (stdout w') = Some (Text "Data updated successfully.")
  | Uncaught e w' => crop_data w' = crop_data w /\ console_error e
  end.
Proof.
  unfold update_crop_data.
  destruct (crop_data w) as [|c0 cs] eqn:Hcs.
  { cbn [final print crop_data]. rewrite Hcs. split; [|by split; [|left]].
    apply console_only_refl; [done|by apply prefix_app_r|done]. }
  pose proof (input_int_outcome w) as Hint.
  destruct (input_int (stdin w) (stdout w)) as [[[n|e] lines] out].
  2:{ destruct Hint as (He & Hs & ->). cbn [final set_console crop_data].
      rewrite Hcs. split; [by split|by split]. }
  destruct Hint as (line & Hin & Hn & ->).
  cbn [crop_data set_console]. rewrite Hcs.
  destruct (_ && _) eqn:Hrange.
  2:{ cbn [final print set_console crop_data]. rewrite Hcs.
      split; [|by split; [|left]].
      split; cbn; [rewrite Hin; by apply suffix_cons_r|].
      split; [by apply prefix_app_r|done]. }
  apply andb_prop in Hrange as [H0 H1].
  apply Z.leb_le in H0. apply Z.ltb_lt in H1.
  set (w0 := set_console lines (stdout w) w).
  assert (Hw0 : crop_data w0 = c0 :: cs) by (cbn; by rewrite Hcs).
  assert (Hl0 : stdin w0 = lines) by done.
  assert (Ho0 : stdout w0 = stdout w) by done.
  assert (Hf0 : files w0 = files w) by done.
  pose proof (input_crop_data_outcome w0) as [(Hs & Hp & Hf) Hentered].
  rewrite Hl0 in Hs. rewrite Ho0 in Hp. rewrite Hf0 in Hf.
  assert (Hsuffix : stdin (final (input_crop_data INPUTS w0))
                    `suffix_of` stdin w).
  { rewrite Hin. by apply suffix_cons_r. }
  clearbody w0.
  destruct (input_crop_data INPUTS w0) as [w1|e w1]; cbn [final] in *.
  2:{ destruct Hentered as [Hw1 He]. rewrite Hw1, Hw0. by repeat split. }
  destruct Hentered as (c & Hw1 & _). rewrite Hw0 in Hw1.
  rewrite Hw1, list_pop_app. unfold list_setitem.
  rewrite (py_index_in_range _ _ (conj H0 H1)).
  cbn [final print set_crop_data crop_data stdin stdout files].
  split; [|split].
  - split; [done|]. split; [etrans; [exact Hp|by apply prefix_app_r]|done].
  - apply length_insert.
  - right. exists (Z.to_nat (n - 1)), c. split; [lia|].
    split; [done|apply last_snoc].
Qed.

(** X3: update is all or nothing and never changes the number of records.
    When it returns, the store is as it was, or one position holds a new
    record and the last message is the confirmation; when it does not (the
    input ran out, or the index or a number of the new record did not
    convert), the store is as it was: a record half entered leaves no
    trace.  It touches no file. *)
Theorem update_crop_data_all_or_nothing w :
  console_only w (update_crop_data INPUTS w) /\
  length (crop_data (final (update_crop_data INPUTS w)))
  = length (crop_data w) /\
  match update_crop_data INPUTS w with
  | Normal w' =>
      crop_data w' = crop_data w \/
      exists (n : nat) c,
        (n < length (crop_data w))%nat /\
        crop_data w' = <[n := c]> (crop_data w) /\
        last (stdout w') = Some (Text "Data updated successfully.")
  | Uncaught e w' => crop_data w' = crop_data w /\ console_error e
  end.
Proof. apply update_crop_data_outcome. Qed.

Lemma delete_crop_data_outcome w :
  console_only w (delete_crop_data w) /\
  match delete_crop_data w with
  | Normal w' =>
      crop_data w' = crop_data w \/
      exists n : nat,
        (n < length (crop_data w))%nat /\
        crop_data w' = delete n (crop_data w) /\
        last (stdout w') = Some (Text "Data deleted successfully.")
  | Uncaught e w' => crop_data w' = crop_data w /\ console_error e
  end.
Proof.
  unfold delete_crop_data.
  destruct (crop_data w) as [|c0 cs] eqn:Hcs.
  { cbn [final print crop_data]. rewrite Hcs. split; [|by left].
    apply console_only_refl; [done|by apply prefix_app_r|done]. }
  pose proof (input_int_outcome w) as Hint.
  destruct (input_int (stdin w) (stdout w)) as [[[n|e] lines] out].
  2:{ destruct Hint as (He & Hs & ->). cbn [final set_console crop_data].
      rewrite Hcs. split; [by split|by split]. }
  destruct Hint as (line & Hin & Hn & ->).
  cbn [crop_data set_console]. rewrite Hcs.
  destruct (_ && _) eqn:Hrange.
  2:{ cbn [final print set_console crop_data]. rewrite Hcs.
      split; [|by left].
      split; cbn; [rewrite Hin; by apply suffix_cons_r|].
      split; [by apply prefix_app_r|done]. }
  apply andb_prop in Hrange as [H0 H1].
  apply Z.leb_le in H0. apply Z.ltb_lt in H1.
  unfold list_delitem. rewrite (py_index_in_range _ _ (conj H0 H1)).
  cbn [final print set_crop_data crop_data stdin stdout files].
  split.
  - split; [rewrite Hin; by apply suffix_cons_r|].
    split; [by apply prefix_app_r|done].
  - right. exists (Z.to_nat (n - 1)). split; [lia|].
    split; [done|apply last_snoc].
Qed.

(** X4: delete is all or nothing.  When it returns, the store is as it was,
    or exactly one position has been removed and the last message is the
    confirmation; when it does not (the input ran out or the index did not
    convert), the store is as it was.  It touches no file. *)
Theorem delete_crop_data_all_or_nothing w :
  console_only w (delete_crop_data w) /\
  match delete_crop_data w with
  | Normal w' =>
      crop_data w' = crop_data w \/
      exists n : nat,
        (n < length (crop_data w))%nat /\
        crop_data w' = delete n (crop_data w) /\
        last (stdout w') = Some (Text "Data deleted successfully.")
  | Uncaught e w' => crop_data w' = crop_data w /\ console_error e
  end.
Proof. apply delete_crop_data_outcome. Qed.

(** X5: what delete does with an index it cannot use.  On the empty store
    it says there is no data and reads nothing.  On a store with records,
    an index below 1 or above the size is answered with "Invalid index."
    and the store is as it was; a line that is not a number ends the run
    with a [ValueError] that nothing catches, the store as it was. *)
Theorem delete_crop_data_bad_index w :
  (crop_data w = [] ->
   delete_crop_data w
   = Normal (World [] (stdin w)
               (stdout w ++ [Text "No data available to delete."]) (files w))) /\
  (forall line lines,
      crop_data w <> [] -> stdin w = line :: lines ->
      (forall i, py_int line = Some i ->
                 i < 1 \/ Z.of_nat (length (crop_data w)) < i ->
                 delete_crop_data w
                 = Normal (World (crop_data w) lines
                             (stdout w ++ [Text "Invalid index."]) (files w))) /\
      (py_int line = None ->
       delete_crop_data w
       = Uncaught (ValueError line)
           (World (crop_data w) lines (stdout w) (files w)))).
Proof.
  unfold delete_crop_data. split.
  - intros Hcs. rewrite Hcs. unfold print. by rewrite Hcs.
  - intros line lines Hne Hin.
    destruct (crop_data w) as [|c0 cs] eqn:Hcs; [done|].
    unfold input_int. rewrite Hin. split.
    + intros i Hi Hrange. rewrite Hi. cbn [crop_data set_console].
      rewrite Hcs.
      destruct (Z.leb_spec 0 (i - 1)),
               (Z.ltb_spec (i - 1) (Z.of_nat (length (c0 :: cs))));
        try lia; cbn [andb]; unfold print, set_console; simpl;
        by rewrite Hcs.
    + intros ->. unfold set_console. by rewrite Hcs.
Qed.

Lemma delete_removes_at w line lines i :
  stdin w = line :: lines -> py_int line = Some i ->
  1 <= i <= Z.of_nat (length (crop_data w)) ->
  exists w',
    delete_crop_data w = Normal w' /\
    crop_data w' = delete (Z.to_nat (i - 1)) (crop_data w) /\
    files w' = files w.
Proof.
  intros Hin Hint Hi. unfold delete_crop_data.
  destruct (crop_data w) as [|c0 cs] eqn:Hcs; [simpl in Hi; lia|].
  unfold input_int. rewrite Hin, Hint. cbn [crop_data set_console].
  rewrite Hcs.
  assert (Hr : 0 <= i - 1 < Z.of_nat (length (c0 :: cs))) by lia.
  rewrite (proj2 (Z.leb_le _ _) (proj1 Hr)), (proj2 (Z.ltb_lt _ _) (proj2 Hr)).
  unfold list_delitem. rewrite (py_index_in_range _ _ Hr). cbn [andb].
  by eexists.
Qed.

(** X6: entering a record and then deleting the last position gives the
    store back: the new record went to the end and delete removes exactly
    it. *)
Theorem enter_then_delete_last w w1 line lines :
  input_crop_data INPUTS w = Normal w1 ->
  stdin w1 = line :: lines ->
  py_int line = Some (Z.of_nat (length (crop_data w)) + 1) ->
  exists w2,
    delete_crop_data w1 = Normal w2 /\
    crop_data w2 = crop_data w /\ files w2 = files w.
Proof.
  intros Henter Hin Hline.
  pose proof (input_crop_data_outcome w) as [(_ & _ & Hf) Hentered].
  rewrite Henter in Hentered, Hf. cbn [final] in Hf.
  destruct Hentered as (c & Hw1 & _).
  destruct (delete_removes_at w1 line lines
              (Z.of_nat (length (crop_data w)) + 1) Hin Hline) as (w2 & Hrun & Hcs & Hf2).
  { rewrite Hw1, length_app. simpl. lia. }
  exists w2. split; [done|]. split; [|by rewrite Hf2].
  rewrite Hcs, Hw1. replace (Z.to_nat _) with (length (crop_data w)) by lia.
  by rewrite delete_middle, app_nil_r.
Qed.
End ConsoleOperations.

Lemma read_crop_entered_witness :
  read_crop example_catalog ["2"; "100.0"; "100.0"; "8"; "50.0"] []
  = (Ok corn_fertilized, [],
     [Text "Select crop type:"; CropOption 1 "Soybean"; CropOption 2 "Corn";
      Text "Enter the quantity for each input (or 0 to skip):"]) /\
  record_wf corn_fertilized.
Proof.
  split; [reflexivity|].
  exact (proj1 (proj2 (read_crop_entered example_catalog
           ["2"; "100.0"; "100.0"; "8"; "50.0"] [] corn_fertilized [] _
           eq_refl))).
Defined.

Lemma delete_crop_data_bad_index_witness :
  delete_crop_data (World [soybean_fertilized; soybean_plain] ["3"] [] ∅)
  = Normal (World [soybean_fertilized; soybean_plain] []
              [Text "Invalid index."] ∅) /\
  delete_crop_data (World [soybean_fertilized] ["one"] [] ∅)
  = Uncaught (ValueError "one") (World [soybean_fertilized] [] [] ∅).
Proof.
  split.
  - apply (proj1 (proj2 (delete_crop_data_bad_index
             (World [soybean_fertilized; soybean_plain] ["3"] [] ∅))
             "3" [] ltac:(discriminate) eq_refl) 3 eq_refl).
    right. simpl. lia.
  - exact (proj2 (proj2 (delete_crop_data_bad_index
             (World [soybean_fertilized] ["one"] [] ∅))
             "one" [] ltac:(discriminate) eq_refl) eq_refl).
Defined.

Lemma enter_then_delete_last_witness :
  exists w2,
    delete_crop_data
      (final (input_crop_data example_catalog
                (World [soybean_fertilized]
                   ["2"; "100.0"; "100.0"; "8"; "50.0"; "2"] [] ∅)))
    = Normal w2 /\
    crop_data w2 = [soybean_fertilized].
Proof.
  destruct (enter_then_delete_last example_catalog
              (World [soybean_fertilized]
                 ["2"; "100.0"; "100.0"; "8"; "50.0"; "2"] [] ∅)
              _ "2" [] eq_refl eq_refl eq_refl) as (w2 & Hrun & Hcs & _).
  exists w2. split; [exact Hrun|exact Hcs].
Defined.

(** ** Export and import: what is written, what is reported *)

Section Codec.
Context {num : PyNum}.
Variable INPUTS : dict (dict input_info).
Implicit Types (w : world) (c : crop) (cs : list crop) (k key : string).

(** X7: export on a store with records always succeeds: the row dict never
    holds a key outside the field names, so [writerow] does not raise.  It
    leaves the store and the input alone and replaces [crop_data.csv], and
    no other file, by the header followed by one row per record in store
    order, each with one cell per field name. *)
Theorem export_to_csv_writes cs lines out fs :
  cs <> [] ->
  let file :=
    export_fieldnames cs
    :: map (fun c => map (export_cell c) (export_fieldnames cs)) cs in
  export_to_csv (World cs lines out fs)
  = Normal
      (World cs lines
         (out ++ [Text "Data exported to crop_data.csv successfully."])
         (<["crop_data.csv" := file]> fs)) /\
  length file = S (length cs) /\
  Forall (fun row => length row = length (export_fieldnames cs)) file /\
  forall name, name <> "crop_data.csv" ->
               <["crop_data.csv" := file]> fs !! name = fs !! name.
Proof.
  intros Hne. cbn zeta. split; [by apply export_to_csv_file|].
  split; [by rewrite length_cons, length_map|]. split.
  - constructor; [done|]. apply Forall_forall. intros row Hrow.
    apply list_elem_of_fmap in Hrow as (c & -> & _). apply length_map.
  - intros name Hname. by apply lookup_insert_ne.
Qed.

(** X8: the cells of the row export writes for a record.  Under the five
    fixed columns stand the crop type and the text of the length, the
    width, the area and the row count.  Under a column of a kind stands the
    matching field of the measurement when the record holds the kind, and
    the empty cell when it does not. *)
Theorem export_cell_contents c :
  NoDup (dict_keys (c_inputs c)) ->
  map (export_cell c) fixed_columns
  = [c_type c; str_float (c_length c); str_float (c_width c);
     str_float (c_area c); str_int (c_num_rows c)] /\
  forall k,
    match dict_get k (c_inputs c) with
    | Some m =>
        export_cell c (column k "name") = cell_of_value (value_of_text (m_name m)) /\
        export_cell c (column k "amount_per_ha") = str_float (m_amount_per_ha m) /\
        export_cell c (column k "total_amount") = str_float (m_total_amount m) /\
        export_cell c (column k "unit") = cell_of_value (value_of_text (m_unit m))
    | None =>
        forall key, key ∈ input_keys -> export_cell c (column k key) = ""
    end.
Proof.
  intros Hnodup.
  assert (Hkind : forall k key, key ∈ input_keys ->
            export_cell c (column k key)
            = match dict_get k (c_inputs c) with
              | Some m => cell_of_value (field_value key m)
              | None => ""
              end).
  { intros k key Hkey. unfold export_cell.
    rewrite export_row_fold, fill_row_get_kind by done.
    destruct (dict_get k (c_inputs c)); [done|].
    assert (dict_get (column k key) (fixed_row c) = None) as ->; [|done].
    apply dict_get_None_keys. by apply (column_not_fixed k key). }
  split.
  - unfold export_cell, fixed_columns. cbn [map].
    rewrite export_row_fold, !fill_row_get_fixed by key_in. reflexivity.
  - intros k. destruct (dict_get k (c_inputs c)) as [m|] eqn:Hm.
    + rewrite !Hkind, Hm by key_in.
      by destruct (field_value_keys m) as (-> & -> & -> & ->).
    + intros key Hkey. by rewrite Hkind, Hm.
Qed.

(** X9: the column names never clash, whatever the kinds are called.  Two
    columns of kinds are the same column only for the same kind and the
    same key, and no column of a kind is one of the five fixed columns. *)
Theorem column_names_distinct k1 k2 key1 key2 :
  key1 ∈ input_keys -> key2 ∈ input_keys ->
  (column k1 key1 = column k2 key2 <-> k1 = k2 /\ key1 = key2) /\
  column k1 key1 ∉ fixed_columns.
Proof.
  intros H1 H2. split; [split|].
  - by apply column_inj.
  - by intros [-> ->].
  - by apply column_not_fixed.
Qed.

Lemma import_from_csv_console w : console_only w (import_from_csv INPUTS w).
Proof.
  unfold import_from_csv, console_only.
  destruct (stdin w) as [|filename lines] eqn:Hin; [cbn; by rewrite Hin|].
  assert (Hs : lines `suffix_of` filename :: lines) by by apply suffix_cons_r.
  destruct (_ <- _ ;; _) as [cs|e]; [|destruct e]; cbn;
    repeat split; try done; by apply prefix_app_r.
Qed.

Lemma export_to_csv_frame w :
  crop_data (final (export_to_csv w)) = crop_data w /\
  stdin (final (export_to_csv w)) = stdin w /\
  stdout w `prefix_of` stdout (final (export_to_csv w)) /\
  forall name, name <> "crop_data.csv" ->
               files (final (export_to_csv w)) !! name = files w !! name.
Proof.
  unfold export_to_csv. destruct (crop_data w) as [|c0 cs] eqn:Hcs.
  - cbn. rewrite Hcs. repeat split; try done. by apply prefix_app_r.
  - destruct (write_rows _ _ _) as [[e|] written]; cbn;
      repeat split; try done; try (by apply prefix_app_r);
      intros name Hname; by apply lookup_insert_ne.
Qed.

(** X10: what the codec leaves alone.  Import never writes a file: it only
    takes lines off the input and adds messages.  Export never changes the
    store or reads input, and the only file it can change is
    [crop_data.csv]. *)
Theorem codec_frame w :
  console_only w (import_from_csv INPUTS w) /\
  crop_data (final (export_to_csv w)) = crop_data w /\
  stdin (final (export_to_csv w)) = stdin w /\
  stdout w `prefix_of` stdout (final (export_to_csv w)) /\
  forall name, name <> "crop_data.csv" ->
               files (final (export_to_csv w)) !! name = files w !! name.
Proof.
  split; [apply import_from_csv_console|apply export_to_csv_frame].
Qed.

(** X11: importing a file without data rows empties the store.  For a file
    that is empty, or holds a header alone, or a header and blank lines,
    the import reports 0 crops and the store afterwards holds no record,
    whatever it held before. *)
Theorem import_without_rows_empties_store w filename lines file :
  stdin w = filename :: lines ->
  files w !! filename = Some file ->
  file = [] \/ (exists header rows,
                  file = header :: rows /\ Forall (fun cells => cells = []) rows) ->
  import_from_csv INPUTS w
  = Normal (World [] lines (stdout w ++ [Imported 0 filename]) (files w)).
Proof.
  intros Hin Hfile Hempty.
  rewrite (import_from_csv_file _ _ _ _ _ Hin Hfile).
  assert (DictReader file = []) as ->; [|done].
  destruct Hempty as [->|(header & rows & -> & Hblank)]; [done|].
  unfold DictReader. rewrite filter_none; [done|].
  intros cells Hcells. eapply Forall_forall in Hblank; [|done]. tauto.
Qed.

(** X12: a crop type the catalog does not know is reported as a missing
    column.  When the first row that fails has its five fixed columns in
    order and a crop type that is no key of the catalog, the lookup raises
    [KeyError] with that type, the import prints the missing-column message
    naming the type, and nothing but the console changes. *)
Theorem import_unknown_crop_type w filename lines file pre row post cs
    t length width area num_rows :
  stdin w = filename :: lines ->
  files w !! filename = Some file ->
  DictReader file = pre ++ row :: post ->
  Forall2 (fun r c => import_row INPUTS r = Ok c) pre cs ->
  import_fixed row = Ok (Some t, length, width, area, num_rows) ->
  dict_get t INPUTS = None ->
  import_row INPUTS row = Raise (KeyError (Some t)) /\
  import_from_csv INPUTS w
  = Normal (World (crop_data w) lines
              (stdout w ++ [MissingColumn (Some t)]) (files w)).
Proof.
  intros Hin Hfile Hrows Hpre Hfix Hav.
  assert (Hrow : import_row INPUTS row = Raise (KeyError (Some t))).
  { unfold import_row. rewrite Hfix. cbn [rbind catalog_item].
    unfold dict_item. by rewrite Hav. }
  split; [done|].
  rewrite (import_from_csv_file _ _ _ _ _ Hin Hfile), Hrows.
  by rewrite (import_rows_first_Raise _ _ _ _ _ _ _ Hpre Hrow).
Qed.

Lemma fill_missing_get (ks : list string) (d : dict (option string)) k :
  dict_get k (fold_left (fun d k => dict_set k None d) ks d)
  = if decide (k ∈ ks) then Some None else dict_get k d.
Proof.
  revert d. induction ks as [|k0 ks IH]; intros d.
  - by rewrite decide_False by apply not_elem_of_nil.
  - cbn [fold_left]. rewrite IH, dict_get_set.
    destruct (decide (k ∈ ks)) as [Hin|Hnotin].
    + rewrite decide_True; [done|by right].
    + destruct (decide (k = k0)) as [->|Hne].
      * rewrite decide_True; [done|left].
      * rewrite decide_False; [done|]. rewrite elem_of_cons. tauto.
Qed.

Lemma zip_cells_present (fieldnames cells : list string)
    (d : dict (option string)) k :
  is_Some (dict_get k d) \/ k ∈ take (length cells) fieldnames ->
  is_Some (dict_get k (fold_left (fun d '(k, cell) => dict_set k (Some cell) d)
                         (zip fieldnames cells) d)).
Proof.
  revert cells d. induction fieldnames as [|x fieldnames IH]; intros cells d.
  - rewrite take_nil. intros [H|H]; [done|by apply elem_of_nil in H].
  - destruct cells as [|cell cells].
    + intros [H|H]; [done|by apply elem_of_nil in H].
    + cbn [zip zip_with fold_left length take]. intros H. apply IH.
      rewrite dict_get_set. destruct (decide (k = x)) as [->|Hne].
      * left. by eexists.
      * rewrite elem_of_cons in H. tauto.
Qed.

(** A field name of the header is a key of the row the reader yields, and
    it maps to [None] when the row is too short to reach it. *)
Lemma reader_row_header (fieldnames cells : list string) k :
  k ∈ fieldnames ->
  is_Some (dict_get k (reader_row fieldnames cells)) /\
  (k ∈ drop (length cells) fieldnames ->
   dict_get k (reader_row fieldnames cells) = Some None).
Proof.
  intros Hk. unfold reader_row. rewrite fill_missing_get. split.
  - destruct (decide (k ∈ drop (length cells) fieldnames)); [by eexists|].
    apply zip_cells_present. right.
    rewrite <- (take_drop (length cells) fieldnames) in Hk.
    apply elem_of_app in Hk. tauto.
  - intros Hdrop. by rewrite decide_True.
Qed.

(** X13: a row too short to reach the [length] column ends the run instead
    of being reported.  The reader fills the missing cell with [None],
    [float(None)] raises [TypeError], and none of the three [except]
    clauses catches it: when such a row is the first that fails, the import
    prints nothing and the exception escapes, the store as it was. *)
Theorem import_short_row_uncaught w filename lines header rows pre cells post cs :
  stdin w = filename :: lines ->
  files w !! filename = Some (header :: rows) ->
  filter (fun cells => cells <> []) rows = pre ++ cells :: post ->
  Forall2 (fun r c => import_row INPUTS (reader_row header r) = Ok c) pre cs ->
  "type" ∈ header ->
  "length" ∈ drop (length cells) header ->
  import_row INPUTS (reader_row header cells) = Raise TypeError /\
  import_from_csv INPUTS w
  = Uncaught TypeError (World (crop_data w) lines (stdout w) (files w)).
Proof.
  intros Hin Hfile Hrows Hpre Htype Hlength.
  assert (Hrow : import_row INPUTS (reader_row header cells) = Raise TypeError).
  { destruct (reader_row_header header cells "type" Htype) as [[ty Hty] _].
    assert (Hl : "length" ∈ header).
    { rewrite <- (take_drop (length cells) header). apply elem_of_app. tauto. }
    destruct (reader_row_header header cells "length" Hl) as [_ Hnone].
    unfold import_row, import_fixed, dict_item.
    by rewrite Hty, (Hnone Hlength). }
  split; [done|].
  rewrite (import_from_csv_file _ _ _ _ _ Hin Hfile).
  unfold DictReader. rewrite Hrows, map_app. cbn [map].
  assert (Hpre' : Forall2 (fun r c => import_row INPUTS r = Ok c)
                    (map (reader_row header) pre) cs)
    by by apply Forall2_fmap_l.
  by rewrite (import_rows_first_Raise _ _ _ _ _ _ _ Hpre' Hrow).
Qed.

(** X14: the fixed fields of an imported record are the five fixed cells
    of its row, converted: the type is the cell as it stands and the
    length, width, area and row count are what [float] and [int] make of
    their cells.  The area is the one in the file; it is not recomputed
    from the length and the width. *)
Theorem import_row_fixed_fields row c :
  import_row INPUTS row = Ok c ->
  dict_get "type" row = Some (Some (c_type c)) /\
  (exists cell, dict_get "length" row = Some cell /\
                to_float cell = Ok (c_length c)) /\
  (exists cell, dict_get "width" row = Some cell /\
                to_float cell = Ok (c_width c)) /\
  (exists cell, dict_get "area" row = Some cell /\
                to_float cell = Ok (c_area c)) /\
  (exists cell, dict_get "num_rows" row = Some cell /\
                to_int cell = Ok (c_num_rows c)).
Proof.
  intros Hrow. apply import_row_Ok in Hrow
    as (type & available & Hfix & -> & _ & _).
  unfold import_fixed in Hfix.
  repeat setoid_rewrite rbind_Ok in Hfix.
  repeat setoid_rewrite dict_item_Ok in Hfix.
  destruct Hfix as (ty & Hty & l & Hl & len & Hlen & wd & Hwd & width & Hwidth
                    & a & Ha & area & Harea & n & Hn & rows & Hnum & Heq).
  injection Heq as -> <- <- <- <-.
  split; [done|]. split; [by exists l|]. split; [by exists wd|].
  split; [by exists a|by exists n].
Qed.
(** X21: what a successful import reports and leaves.  When every row of
    the file parses, the import reads one line (the file name), prints that
    it imported as many crops as the file has rows that are not blank, and
    leaves the files as they were; the store is the parsed records. *)
Theorem import_success_report w filename lines header rows cs :
  stdin w = filename :: lines ->
  files w !! filename = Some (header :: rows) ->
  rows_parse INPUTS (header :: rows) cs ->
  import_from_csv INPUTS w
  = Normal (World cs lines (stdout w ++ [Imported (length cs) filename])
              (files w)) /\
  length cs = length (filter (fun cells => cells <> []) rows).
Proof.
  intros Hin Hfile Hparse. split.
  - rewrite (import_from_csv_file _ _ _ _ _ Hin Hfile).
    assert (import_rows INPUTS (DictReader (header :: rows)) [] = Ok cs) as ->;
      [|done].
    apply import_rows_Ok. by exists cs.
  - apply Forall2_length in Hparse. unfold DictReader in Hparse.
    by rewrite length_map in Hparse.
Qed.
End Codec.

Lemma export_to_csv_writes_witness :
  export_to_csv (World [soybean_fertilized; soybean_plain] [] [] ∅)
  = Normal
      (World [soybean_fertilized; soybean_plain] []
         [Text "Data exported to crop_data.csv successfully."]
         {[ "crop_data.csv" := mixed_file ]}).
Proof.
  rewrite (proj1 (export_to_csv_writes [soybean_fertilized; soybean_plain]
                    [] [] ∅ ltac:(discriminate))).
  by vm_compute.
Defined.

Lemma export_cell_contents_witness :
  map (export_cell soybean_fertilized) fixed_columns
  = ["Soybean"; "200.0"; "100.0"; "2.0"; "10"].
Proof.
  rewrite (proj1 (export_cell_contents soybean_fertilized
                    ltac:(apply NoDup_singleton))).
  reflexivity.
Defined.

Lemma column_names_distinct_witness :
  column "seed_total" "amount_per_ha" <> column "seed" "total_amount" /\
  column "num" "unit" ∉ fixed_columns.
Proof.
  destruct (column_names_distinct "seed_total" "seed" "amount_per_ha"
              "total_amount" ltac:(key_in) ltac:(key_in)) as [[Hsame _] _].
  split.
  - intros Heq. by destruct (Hsame Heq).
  - exact (proj2 (column_names_distinct "num" "num" "unit" "unit"
                    ltac:(key_in) ltac:(key_in))).
Defined.

Lemma import_without_rows_empties_store_witness :
  import_from_csv example_catalog (importing header_only_file)
  = Normal (World [] [] [Imported 0 "data.csv"]
              {[ "data.csv" := header_only_file ]}).
Proof.
  apply (import_without_rows_empties_store example_catalog
           (importing header_only_file) "data.csv" [] header_only_file
           eq_refl eq_refl).
  right. exists mixed_header, []. split; [reflexivity|constructor].
Defined.

Lemma import_unknown_crop_type_witness :
  import_from_csv example_catalog (importing wheat_file)
  = Normal (World [corn_fertilized] [] [MissingColumn (Some "Wheat")]
              {[ "data.csv" := wheat_file ]}).
Proof.
  apply (import_unknown_crop_type example_catalog (importing wheat_file)
           "data.csv" [] wheat_file []
           (reader_row mixed_header
              ["Wheat"; "10.0"; "10.0"; "1.0"; "3"; ""; ""; ""; ""])
           [] [] "Wheat" 10 10 1 3);
    first [reflexivity | constructor].
Defined.

Lemma import_short_row_uncaught_witness :
  import_from_csv example_catalog (importing short_file)
  = Uncaught TypeError
      (World [corn_fertilized] [] [] {[ "data.csv" := short_file ]}).
Proof.
  apply (import_short_row_uncaught example_catalog (importing short_file)
           "data.csv" [] mixed_header [["Soybean"]] [] ["Soybean"] [] []);
    first [reflexivity | constructor | key_in].
Defined.

Lemma import_row_fixed_fields_witness :
  exists cell,
    dict_get "area" fertilized_row = Some cell /\
    to_float cell = Ok (c_area soybean_fertilized).
Proof.
  exact (proj1 (proj2 (proj2 (proj2
           (import_row_fixed_fields example_catalog fertilized_row
              soybean_fertilized eq_refl))))).
Defined.

Lemma import_success_report_witness :
  import_from_csv example_catalog
    (importing [mixed_header; [];
                ["Soybean"; "200.0"; "100.0"; "2.0"; "10"; "NPK"; "100.0";
                 "200.0"; "kg"]])
  = Normal
      (World [soybean_fertilized] [] [Imported 1 "data.csv"]
         {[ "data.csv" :=
              [mixed_header; [];
               ["Soybean"; "200.0"; "100.0"; "2.0"; "10"; "NPK"; "100.0";
                "200.0"; "kg"]] ]}).
Proof.
  apply (import_success_report example_catalog
           (importing [mixed_header; [];
                ["Soybean"; "200.0"; "100.0"; "2.0"; "10"; "NPK"; "100.0";
                 "200.0"; "kg"]])
           "data.csv" [] mixed_header _ [soybean_fertilized] eq_refl eq_refl).
  repeat constructor.
Defined.

(** ** Showing the store and running the menu *)

Section SessionFacts.
Context {num : PyNum}.
Variable INPUTS : dict (dict input_info).
Variable format_2f : float -> string.
Implicit Types (w : world) (c : crop) (cs : list crop).

Lemma display_inputs_length (d : dict measurement) :
  length (flat_map (display_input format_2f) d) = (3 * length d)%nat.
Proof.
  induction d as [|[k m] d IH]; [done|].
  cbn [flat_map]. rewrite length_app, IH. cbn [display_input length]. lia.
Qed.

Lemma display_crops_length idx cs :
  length (display_crops format_2f idx cs)
  = sum_list (map display_lines cs).
Proof.
  revert idx. induction cs as [|c cs IH]; intros idx; [done|].
  cbn [display_crops map sum_list sum_list_with]. rewrite length_app, IH.
  f_equal. unfold display_crop, display_lines.
  rewrite length_app, display_inputs_length. done.
Qed.

Lemma display_crop_data_outcome w :
  exists printed,
    display_crop_data format_2f w
    = Normal (World (crop_data w) (stdin w) (stdout w ++ printed) (files w)) /\
    (crop_data w = [] -> printed = [Text "No data available."]) /\
    (crop_data w <> [] ->
     printed = display_crops format_2f 0 (crop_data w) /\
     length printed = sum_list (map display_lines (crop_data w))).
Proof.
  unfold display_crop_data. destruct (crop_data w) as [|c0 cs] eqn:Hcs.
  - exists [Text "No data available."]. unfold print. rewrite Hcs.
    by repeat split.
  - exists (display_crops format_2f 0 (c0 :: cs)). repeat split; try done.
    apply display_crops_length.
Qed.

(** X17: showing the store changes nothing but the output.  On the empty
    store one line says there is no data; otherwise the records are shown
    in store order, six lines for each and three more for each of its
    measurements. *)
Theorem display_crop_data_shows w :
  exists printed,
    display_crop_data format_2f w
    = Normal (World (crop_data w) (stdin w) (stdout w ++ printed) (files w)) /\
    (crop_data w = [] -> printed = [Text "No data available."]) /\
    (crop_data w <> [] ->
     printed = display_crops format_2f 0 (crop_data w) /\
     length printed = sum_list (map display_lines (crop_data w))).
Proof. apply display_crop_data_outcome. Qed.

(** *** One turn of the menu *)

Lemma keeps_refl w : keeps INPUTS w w.
Proof. by repeat split. Qed.

Lemma keeps_trans w1 w2 w3 :
  keeps INPUTS w1 w2 -> keeps INPUTS w2 w3 -> keeps INPUTS w1 w3.
Proof.
  intros (Hs & Hp & Hok & Hf) (Hs' & Hp' & Hok' & Hf').
  repeat split; [by etrans|by etrans|auto|].
  intros name Hname. by rewrite Hf', Hf.
Qed.

Lemma console_only_keeps w o :
  console_only w o ->
  (store_ok INPUTS (crop_data w) -> store_ok INPUTS (crop_data (final o))) ->
  keeps INPUTS w (final o).
Proof.
  intros (Hs & Hp & Hf) Hok. repeat split; try done.
  intros name _. by rewrite Hf.
Qed.

Lemma rbind_Raise {A B} (r : result A) (k : A -> result B) e :
  rbind r k = Raise e ->
  r = Raise e \/ exists a, r = Ok a /\ k a = Raise e.
Proof. destruct r as [a|e']; simpl; [right; by exists a|left; congruence]. Qed.

(** What a row can raise: a missing key, or a cell that does not convert or
    is [None]. *)
Lemma dict_item_Raise {V} k (d : dict V) e :
  dict_item k d = Raise e -> e = KeyError (Some k).
Proof. unfold dict_item. destruct (dict_get k d); congruence. Qed.

Lemma to_float_Raise cell e :
  to_float cell = Raise e -> (exists s, e = ValueError s) \/ e = TypeError.
Proof.
  unfold to_float. destruct cell as [s|]; [|intros [= <-]; by right].
  destruct (py_float s); [done|]. intros [= <-]. left. by exists s.
Qed.

Lemma to_int_Raise cell e :
  to_int cell = Raise e -> (exists s, e = ValueError s) \/ e = TypeError.
Proof.
  unfold to_int. destruct cell as [s|]; [|intros [= <-]; by right].
  destruct (py_int s); [done|]. intros [= <-]. left. by exists s.
Qed.

Lemma row_error_key k : row_error (KeyError k).
Proof. left. by exists k. Qed.

Lemma row_error_convert e :
  (exists s, e = ValueError s) \/ e = TypeError -> row_error e.
Proof. intros H. by right. Qed.

Ltac raise_cases H :=
  repeat (apply rbind_Raise in H as [H|(? & _ & H)]);
  first [ apply dict_item_Raise in H; subst; apply row_error_key
        | apply to_float_Raise in H; by apply row_error_convert
        | apply to_int_Raise in H; by apply row_error_convert
        | discriminate H
        | idtac ].

Lemma import_fixed_Raise row e :
  import_fixed row = Raise e -> row_error e.
Proof. unfold import_fixed. intros H. raise_cases H. Qed.

Lemma import_measurement_Raise row k e :
  import_measurement row k = Raise e -> row_error e.
Proof. unfold import_measurement. intros H. raise_cases H. Qed.

Lemma import_inputs_Raise row kinds acc e :
  import_inputs row kinds acc = Raise e -> row_error e.
Proof.
  revert acc. induction kinds as [|k kinds IH]; intros acc;
    cbn [import_inputs]; [done|].
  destruct (dict_has _ row); [|apply IH].
  intros H. apply rbind_Raise in H as [H|(m & _ & H)].
  - by eapply import_measurement_Raise.
  - by eapply IH.
Qed.

Lemma import_row_Raise row e :
  import_row INPUTS row = Raise e -> row_error e.
Proof.
  unfold import_row. intros H.
  apply rbind_Raise in H as [H|([[[[ty l] wd] a] n] & _ & H)].
  { by eapply import_fixed_Raise. }
  apply rbind_Raise in H as [H|(ta & _ & H)].
  { unfold catalog_item in H. destruct ty as [t|].
    - raise_cases H.
    - injection H as <-. apply row_error_key. }
  apply rbind_Raise in H as [H|(d & _ & H)]; [|done].
  by eapply import_inputs_Raise.
Qed.

Lemma import_rows_Raise_error rows acc e :
  import_rows INPUTS rows acc = Raise e -> row_error e.
Proof.
  revert acc. induction rows as [|row rows IH]; intros acc;
    cbn [import_rows]; [done|].
  intros H. apply rbind_Raise in H as [H|(c & _ & H)].
  - by eapply import_row_Raise.
  - by eapply IH.
Qed.

Lemma import_from_csv_escapes w e w' :
  import_from_csv INPUTS w = Uncaught e w' -> escapes e.
Proof.
  unfold import_from_csv.
  destruct (stdin w) as [|filename lines]; [intros [= <- _]; left; by left|].
  unfold open_read. cbn [files set_console].
  destruct (files w !! filename) as [file|]; cbn [rbind]; [|done].
  destruct (import_rows _ _ _) as [cs|e0] eqn:Hrows; [done|].
  apply import_rows_Raise_error in Hrows.
  destruct e0; try done; intros [= <- _];
    destruct Hrows as [[? ?]|[[? ?]|?]]; try done. by right.
Qed.

Lemma export_to_csv_returns w : exists w', export_to_csv w = Normal w'.
Proof.
  destruct (crop_data w) as [|c0 cs] eqn:Hcs.
  - unfold export_to_csv. rewrite Hcs. by eexists.
  - destruct w as [cs' lines out fs]. cbn in Hcs. subst cs'.
    rewrite export_to_csv_file by done. by eexists.
Qed.

(** How a run may end: by the exit message, or by an exception that escapes. *)
Lemma after_cases w0 w (o : outcome) :
  keeps INPUTS w0 w -> keeps INPUTS w (final o) ->
  (forall e w', o = Uncaught e w' -> escapes e) ->
  match after o with
  | Again w' => keeps INPUTS w0 w'
  | Over o' =>
      keeps INPUTS w0 (final o') /\
      match o' with
      | Normal w' =>
          last (stdout w') = Some (Text "Exiting the program. Goodbye!")
      | Uncaught e _ => escapes e
      end
  end.
Proof.
  intros H0 H1 He. destruct o as [w'|e w']; cbn [after final] in *.
  - by eapply keeps_trans.
  - split; [by eapply keeps_trans|]. by eapply He.
Qed.

Lemma menu_turn_cases w :
  match menu_turn INPUTS format_2f w with
  | Again w' =>
      keeps INPUTS w w' /\ (length (stdin w') < length (stdin w))%nat
  | Over o =>
      keeps INPUTS w (final o) /\
      match o with
      | Normal w' =>
          last (stdout w') = Some (Text "Exiting the program. Goodbye!")
      | Uncaught e _ => escapes e
      end
  end.
Proof.
  unfold menu_turn. cbn [stdin stdout crop_data files].
  destruct (stdin w) as [|choice lines] eqn:Hin.
  { split; [|left; by left]. repeat split; cbn; try done.
    - by rewrite Hin.
    - by apply prefix_app_r. }
  cbn [set_console stdin stdout crop_data files].
  set (w1 := World (crop_data w) lines (stdout w ++ menu_text) (files w)).
  assert (Hw1 : keeps INPUTS w w1).
  { repeat split; cbn; try done.
    - rewrite Hin. by apply suffix_cons_r.
    - by apply prefix_app_r. }
  assert (Hshorter : forall w', keeps INPUTS w1 w' ->
            (length (stdin w') < length (choice :: lines))%nat).
  { intros w' (Hs & _). apply suffix_length in Hs. cbn in Hs. cbn. lia. }
  assert (Hturn : forall o,
            keeps INPUTS w1 (final o) ->
            (forall e w', o = Uncaught e w' -> escapes e) ->
            match after o with
            | Again w' =>
                keeps INPUTS w w' /\
                (length (stdin w') < length (choice :: lines))%nat
            | Over o' =>
                keeps INPUTS w (final o') /\
                match o' with
                | Normal w' =>
                    last (stdout w')
                    = Some (Text "Exiting the program. Goodbye!")
                | Uncaught e _ => escapes e
                end
            end).
  { intros o Hk He. pose proof (after_cases w w1 o Hw1 Hk He) as Hafter.
    destruct o as [w'|e w']; cbn [after final] in *; [|done].
    split; [done|]. by apply Hshorter. }
  repeat case_decide.
  - apply (Hturn (input_crop_data INPUTS w1)).
    + apply console_only_keeps; [apply input_crop_data_outcome|].
      apply input_crop_data_ok.
    + intros e w' Ho. pose proof (input_crop_data_outcome INPUTS w1) as [_ Hout].
      rewrite Ho in Hout. left. apply Hout.
  - apply (Hturn (display_crop_data format_2f w1)).
    + destruct (display_crop_data_outcome w1) as (printed & -> & _).
      repeat split; cbn; try done. by apply prefix_app_r.
    + intros e w' Ho.
      destruct (display_crop_data_outcome w1) as (printed & Hd & _).
      congruence.
  - apply (Hturn (update_crop_data INPUTS w1)).
    + apply console_only_keeps; [apply update_crop_data_outcome|].
      apply update_crop_data_ok.
    + intros e w' Ho. pose proof (update_crop_data_outcome INPUTS w1) as (_ & _ & Hout).
      rewrite Ho in Hout. left. apply Hout.
  - apply (Hturn (delete_crop_data w1)).
    + apply console_only_keeps; [apply delete_crop_data_outcome|].
      apply delete_crop_data_ok.
    + intros e w' Ho. pose proof (delete_crop_data_outcome w1) as [_ Hout].
      rewrite Ho in Hout. left. apply Hout.
  - apply (Hturn (export_to_csv w1)).
    + destruct (export_to_csv_frame w1) as (Hcs & Hs & Hp & Hf).
      repeat split; try done; [by rewrite Hs|by rewrite Hcs].
    + intros e w' Ho. destruct (export_to_csv_returns w1) as [w2 Hw2].
      congruence.
  - apply (Hturn (import_from_csv INPUTS w1)).
    + apply console_only_keeps; [apply import_from_csv_console|].
      apply import_from_csv_ok.
    + intros e w' Ho. by eapply import_from_csv_escapes.
  - cbn [final print stdout]. split; [|apply last_snoc].
    eapply keeps_trans; [exact Hw1|].
    repeat split; cbn; try done. by apply prefix_app_r.
  - split.
    + eapply keeps_trans; [exact Hw1|].
      repeat split; cbn; try done. by apply prefix_app_r.
    + apply Hshorter. repeat split; cbn; try done. by apply prefix_app_r.
Qed.

Lemma main_menu_outcome turns w o :
  main_menu INPUTS format_2f turns w = Some o ->
  keeps INPUTS w (final o) /\
  match o with
  | Normal w' => last (stdout w') = Some (Text "Exiting the program. Goodbye!")
  | Uncaught e _ => escapes e
  end.
Proof.
  revert w. induction turns as [|turns IH]; intros w; [done|].
  cbn [main_menu]. pose proof (menu_turn_cases w) as Hturn.
  destruct (menu_turn INPUTS format_2f w) as [w'|o'].
  - intros Hrest. destruct (IH _ Hrest) as [Hk Hend].
    split; [|done]. eapply keeps_trans; [apply Hturn|done].
  - by intros [= <-].
Qed.

Lemma main_menu_returns turns w :
  (length (stdin w) < turns)%nat ->
  exists o, main_menu INPUTS format_2f turns w = Some o.
Proof.
  revert w. induction turns as [|turns IH]; intros w Hlen; [lia|].
  cbn [main_menu]. pose proof (menu_turn_cases w) as Hturn.
  destruct (menu_turn INPUTS format_2f w) as [w'|o']; [|by eexists].
  apply IH. lia.
Qed.

Lemma main_menu_more_turns turns turns' w o :
  main_menu INPUTS format_2f turns w = Some o -> (turns <= turns')%nat ->
  main_menu INPUTS format_2f turns' w = Some o.
Proof.
  revert turns' w. induction turns as [|turns IH]; intros turns' w; [done|].
  destruct turns' as [|turns']; [lia|]. cbn [main_menu].
  destruct (menu_turn INPUTS format_2f w) as [w'|o']; [|done].
  intros Hrun Hle. apply IH; [done|lia].
Qed.

(** X18: the menu loop ends on every finite input.  Each turn takes at
    least one line, so after more turns than there are lines the run is
    over, and allowing more turns changes nothing.  A run that ends without
    an exception ended by choice 7, with the goodbye message last. *)
Theorem main_menu_terminates turns w :
  (length (stdin w) < turns)%nat ->
  exists o,
    main_menu INPUTS format_2f turns w = Some o /\
    (forall turns', (turns <= turns')%nat ->
                    main_menu INPUTS format_2f turns' w = Some o) /\
    (forall w', o = Normal w' ->
                last (stdout w') = Some (Text "Exiting the program. Goodbye!")).
Proof.
  intros Hlen. destruct (main_menu_returns turns w Hlen) as [o Ho].
  exists o. split; [done|]. split.
  - intros turns' Hle. by eapply main_menu_more_turns.
  - intros w' ->. by apply main_menu_outcome in Ho as [_ Hend].
Qed.

(** X19: the catalog invariant holds throughout a run.  Starting from a
    store that satisfies it, in particular from the empty store the script
    starts with, whatever the user types, the store at the end of the run
    holds only records whose crop type is in the catalog and whose kinds
    the catalog lists for that type. *)
Theorem main_menu_store_ok turns w o :
  store_ok INPUTS (crop_data w) ->
  main_menu INPUTS format_2f turns w = Some o ->
  store_ok INPUTS (crop_data (final o)).
Proof.
  intros Hok Ho. apply main_menu_outcome in Ho as [(_ & _ & Hkeep & _) _].
  by apply Hkeep.
Qed.

(** X20: what a whole run leaves alone.  The lines not yet read at the end
    are a tail of the input, what was printed is only added to, and no
    file other than [crop_data.csv] is created, changed or removed. *)
Theorem main_menu_frame turns w o :
  main_menu INPUTS format_2f turns w = Some o ->
  stdin (final o) `suffix_of` stdin w /\
  stdout w `prefix_of` stdout (final o) /\
  forall name, name <> "crop_data.csv" ->
               files (final o) !! name = files w !! name.
Proof.
  intros Ho. by apply main_menu_outcome in Ho as [(Hs & Hp & _ & Hf) _].
Qed.
End SessionFacts.

Lemma main_menu_terminates_witness :
  exists o,
    main_menu example_catalog whole_format_2f 16 example_session = Some o /\
    last (stdout (final o)) = Some (Text "Exiting the program. Goodbye!") /\
    stdin (final o) = ["left over"].
Proof.
  destruct (main_menu_terminates example_catalog whole_format_2f 16
              example_session ltac:(simpl; lia)) as (o & Ho & _ & _).
  exists o. split; [exact Ho|].
  vm_compute in Ho. injection Ho as <-. split; reflexivity.
Defined.

Lemma main_menu_store_ok_witness :
  exists o,
    main_menu example_catalog whole_format_2f 16 example_session = Some o /\
    store_ok example_catalog (crop_data (final o)).
Proof.
  destruct (main_menu example_catalog whole_format_2f 16 example_session)
    as [o|] eqn:Ho; [|by vm_compute in Ho].
  exists o. split; [reflexivity|].
  apply (main_menu_store_ok example_catalog whole_format_2f 16
           example_session o); [constructor|exact Ho].
Defined.

Lemma main_menu_frame_witness :
  exists o,
    main_menu example_catalog whole_format_2f 16 example_session = Some o /\
    stdin (final o) `suffix_of` stdin example_session /\
    files (final o) !! "notes.txt" = None.
Proof.
  destruct (main_menu example_catalog whole_format_2f 16 example_session)
    as [o|] eqn:Ho; [|by vm_compute in Ho].
  exists o. split; [reflexivity|].
  destruct (main_menu_frame example_catalog whole_format_2f 16
              example_session o Ho) as (Hs & _ & Hf).
  split; [exact Hs|]. by rewrite Hf.
Defined.
